(** * SigmaHQ rule validators: a shallow embedding and its properties

    The development follows [sigma/validators/sigmahq/metadata.py] and
    [sigma/validators/sigmahq/field.py].  Python exceptions are values of an
    error monad, mutable loop accumulators are threaded explicitly, and the
    attributes a validator stores on [self] are a record passed to
    [validate_detection_item].

    Strings are sequences of characters in the ASCII range; [lower] and
    [upper] map the letters a-z and A-Z and leave every other character
    unchanged. *)

From Stdlib Require Import Ascii String.
From stdpp Require Import base option list strings countable gmap.

Local Open Scope string_scope.
Local Open Scope list_scope.
Local Open Scope nat_scope.

(** ** Exceptions *)

Inductive exn : Set := IndexError | KeyError.

Inductive result (A : Type) : Type :=
| Ok (a : A)
| Raise (e : exn).
Arguments Ok {A} a.
Arguments Raise {A} e.

#[global] Instance result_ret : MRet result := fun _ a => Ok a.
#[global] Instance result_bind : MBind result := fun _ _ f m =>
  match m with
  | Ok a => f a
  | Raise e => Raise e
  end.

(** The issues a caller gets to see: none when the check raised. *)
Definition issues_of {A} (r : result (list A)) : list A :=
  match r with
  | Ok l => l
  | Raise _ => []
  end.

(** ** Python built-ins on [str], [list] and [dict] *)

Module Py.

Definition is_ascii_lower (c : ascii) : bool :=
  (97 <=? nat_of_ascii c) && (nat_of_ascii c <=? 122).

Definition is_ascii_upper (c : ascii) : bool :=
  (65 <=? nat_of_ascii c) && (nat_of_ascii c <=? 90).

Definition upper_char (c : ascii) : ascii :=
  if is_ascii_lower c then ascii_of_nat (nat_of_ascii c - 32) else c.

Definition lower_char (c : ascii) : ascii :=
  if is_ascii_upper c then ascii_of_nat (nat_of_ascii c + 32) else c.

(** [s.upper()] and [s.lower()] *)
Fixpoint upper (s : string) : string :=
  match s with
  | EmptyString => EmptyString
  | String c s' => String (upper_char c) (upper s')
  end.

Fixpoint lower (s : string) : string :=
  match s with
  | EmptyString => EmptyString
  | String c s' => String (lower_char c) (lower s')
  end.

(** [len(s)] *)
Definition len (s : string) : nat := String.length s.

(** [s[i]]: a one-character string, [IndexError] out of range. *)
Definition getitem (s : string) (i : nat) : result string :=
  match String.get i s with
  | Some c => Ok (String c EmptyString)
  | None => Raise IndexError
  end.

(** [l[i]] on a list. *)
Definition list_getitem {A} (l : list A) (i : nat) : result A :=
  match l !! i with
  | Some x => Ok x
  | None => Raise IndexError
  end.

(** [d[k]] on a dict. *)
Definition dict_getitem `{Countable K} {A} (d : gmap K A) (k : K) : result A :=
  match d !! k with
  | Some x => Ok x
  | None => Raise KeyError
  end.

(** [needle in hay] on strings. *)
Fixpoint contains (needle hay : string) : bool :=
  String.prefix needle hay ||
  match hay with
  | EmptyString => false
  | String _ hay' => contains needle hay'
  end.

(** [s.split(sep)] for a one-character separator: every occurrence of the
    separator ends a token, so consecutive separators give empty tokens
    and the result is never the empty list. *)
Fixpoint split (sep : ascii) (s : string) : list string :=
  match s with
  | EmptyString => [EmptyString]
  | String c s' =>
      if decide (c = sep) then EmptyString :: split sep s'
      else match split sep s' with
           | w :: ws => String c w :: ws
           | [] => [String c EmptyString]
           end
  end.

(** The whitespace [s.strip()] removes (ASCII range). *)
Definition is_whitespace (c : ascii) : bool :=
  let n := nat_of_ascii c in
  ((9 <=? n) && (n <=? 13)) || ((28 <=? n) && (n <=? 32)).

Fixpoint lstrip (s : string) : string :=
  match s with
  | EmptyString => EmptyString
  | String c s' => if is_whitespace c then lstrip s' else s
  end.

Fixpoint rstrip (s : string) : string :=
  match s with
  | EmptyString => EmptyString
  | String c s' =>
      match rstrip s' with
      | EmptyString => if is_whitespace c then EmptyString else String c EmptyString
      | t => String c t
      end
  end.

Definition strip (s : string) : string := rstrip (lstrip s).

End Py.

(** ** Data model *)

(** [SigmaLogSource]: compared and hashed on its three optional components. *)
Record SigmaLogSource : Set := mkLogSource {
  category : option string;
  product : option string;
  service : option string;
}.

#[global] Instance SigmaLogSource_eq_dec : EqDecision SigmaLogSource.
Proof. solve_decision. Defined.

#[global] Instance SigmaLogSource_countable : Countable SigmaLogSource :=
  inj_countable'
    (fun l => (category l, product l, service l))
    (fun t => mkLogSource t.1.1 t.1.2 t.2)
    (fun l => match l with mkLogSource _ _ _ => eq_refl end).

Inductive SigmaStatus : Set :=
| STABLE | TEST | EXPERIMENTAL | DEPRECATED | UNSUPPORTED.

(** [status.name] *)
Definition status_name (s : SigmaStatus) : string :=
  match s with
  | STABLE => "STABLE"
  | TEST => "TEST"
  | EXPERIMENTAL => "EXPERIMENTAL"
  | DEPRECATED => "DEPRECATED"
  | UNSUPPORTED => "UNSUPPORTED"
  end.

Inductive SigmaLevel : Set :=
| INFORMATIONAL | LEVEL_LOW | LEVEL_MEDIUM | LEVEL_HIGH | CRITICAL.

Record SigmaDate : Set := mkDate { year : nat; month : nat; day : nat }.

(** The modifier classes [field.py] imports; [SigmaOtherModifier] stands for
    every other modifier class of the library.  [modifiers] holds classes,
    so [M in detection_item.modifiers] is identity of classes. *)
Inductive SigmaModifier : Set :=
| SigmaAllModifier
| SigmaBase64Modifier
| SigmaBase64OffsetModifier
| SigmaRegularExpressionDotAllFlagModifier
| SigmaRegularExpressionFlagModifier
| SigmaRegularExpressionIgnoreCaseFlagModifier
| SigmaRegularExpressionModifier
| SigmaRegularExpressionMultilineFlagModifier
| SigmaCaseSensitiveModifier
| SigmaOtherModifier (name : string).

#[global] Instance SigmaModifier_eq_dec : EqDecision SigmaModifier.
Proof. solve_decision. Defined.

(** The values of a detection item are the library's typed values.  The
    validators use two things of them: [str(v)] and [==] (through
    [v in value_see]). *)
Class SigmaType (V : Type) := {
  SigmaType_eq_dec :: EqDecision V;
  str : V -> string;
}.

Record SigmaDetectionItem (V : Type) : Type := mkItem {
  field : option string;
  modifiers : list SigmaModifier;
  value : list V;
}.
Arguments mkItem {V} _ _ _.
Arguments field {V} _.
Arguments modifiers {V} _.
Arguments value {V} _.

(** [SigmaDetection.detection_items] holds detection items and nested
    detections. *)
#[local] Set Warnings "-register-all".
Inductive SigmaDetection (V : Type) : Type :=
| Detection (detection_items : list (SigmaDetectionItem V + SigmaDetection V)).
#[local] Set Warnings "register-all".
Arguments Detection {V} _.

Record SigmaRule (V : Type) : Type := mkRule {
  status : option SigmaStatus;
  date : option SigmaDate;
  description : option string;
  level : option SigmaLevel;
  falsepositives : list string;
  references : list string;
  logsource : SigmaLogSource;
  (** [rule.detection.detections], in the order of the dict *)
  detections : list (string * SigmaDetection V);
  (** [rule.custom_attributes], in the order of the dict *)
  custom_attributes : list (string * string);
}.
Arguments mkRule {V} _ _ _ _ _ _ _ _ _.
Arguments status {V} _.
Arguments date {V} _.
Arguments description {V} _.
Arguments level {V} _.
Arguments falsepositives {V} _.
Arguments references {V} _.
Arguments logsource {V} _.
Arguments detections {V} _.
Arguments custom_attributes {V} _.

(** ** Issues *)

Inductive SigmaValidationIssueSeverity : Set := LOW | MEDIUM | HIGH.

(** One constructor per issue dataclass, with the fields it adds to the
    base class.  [field.py] declares [SigmahqInvalidAllModifierIssue] twice
    with the same body; the name is bound to one class when a validator
    runs. *)
Inductive IssueClass : Set :=
| SigmahqStatusExistenceIssue
| SigmahqStatusIssue
| SigmahqDateExistenceIssue
| SigmahqDescriptionExistenceIssue
| SigmahqDescriptionLengthIssue
| SigmahqLevelExistenceIssue
| SigmahqFalsepositivesCapitalIssue (word : string)
| SigmahqFalsepositivesBannedWordIssue (word : string)
| SigmahqFalsepositivesTypoWordIssue (word : string)
| SigmahqLinkInDescriptionIssue
| SigmahqUnknownFieldIssue (fieldname : list string)
| SigmahqSpaceFieldNameIssue (field : string)
| SigmahqFieldnameCastIssue (field : string)
| SigmahqInvalidFieldnameIssue (field : string)
| SigmahqInvalidAllModifierIssue (field : option string)
| SigmahqFieldDuplicateValueIssue (field : option string) (value : string)
| SigmahqFieldUserIssue (field : string) (user : string).

(** The [description] and [severity] class variables. *)
Definition issue_description (c : IssueClass) : string :=
  match c with
  | SigmahqStatusExistenceIssue => "Rule is missing the status field"
  | SigmahqStatusIssue =>
      "Rule uses a status field with either Deprecated or Unsupported values, and it is not located in the appropriate folder."
  | SigmahqDateExistenceIssue => "Rule is missing the date field"
  | SigmahqDescriptionExistenceIssue => "Rule is missing the description field"
  | SigmahqDescriptionLengthIssue => "Rule has an overly brief description."
  | SigmahqLevelExistenceIssue => "Rule is missing the level field"
  | SigmahqFalsepositivesCapitalIssue _ =>
      "Rule contains a falsepositive entry that doesn't start with a capital letter"
  | SigmahqFalsepositivesBannedWordIssue _ =>
      "Rule defines a falsepositive entry that is part of the banned words list"
  | SigmahqFalsepositivesTypoWordIssue _ =>
      "Rule contains a falsepositive entry with a common typo."
  | SigmahqLinkInDescriptionIssue =>
      "Rule has a description field that contains a reference to a hyperlink. All hyperlinks are reserved for the references field"
  | SigmahqUnknownFieldIssue _ => "Rule uses an unknown field"
  | SigmahqSpaceFieldNameIssue _ =>
      "Rule uses a field name with a space instead of a underscore."
  | SigmahqFieldnameCastIssue _ => "A field name have a cast error"
  | SigmahqInvalidFieldnameIssue _ => "A field name do not exist"
  | SigmahqInvalidAllModifierIssue _ => "All modifier without a list of value"
  | SigmahqFieldDuplicateValueIssue _ _ => "Field list value have a dulicate item"
  | SigmahqFieldUserIssue _ _ => "User Field has a Localized name"
  end.

Definition issue_severity (c : IssueClass) : SigmaValidationIssueSeverity :=
  match c with
  | SigmahqStatusExistenceIssue | SigmahqDateExistenceIssue
  | SigmahqDescriptionExistenceIssue | SigmahqDescriptionLengthIssue
  | SigmahqLevelExistenceIssue | SigmahqFalsepositivesCapitalIssue _
  | SigmahqFalsepositivesBannedWordIssue _ | SigmahqFalsepositivesTypoWordIssue _
  | SigmahqLinkInDescriptionIssue | SigmahqUnknownFieldIssue _ => MEDIUM
  | SigmahqStatusIssue | SigmahqSpaceFieldNameIssue _ | SigmahqFieldnameCastIssue _
  | SigmahqInvalidFieldnameIssue _ | SigmahqInvalidAllModifierIssue _
  | SigmahqFieldDuplicateValueIssue _ _ | SigmahqFieldUserIssue _ _ => HIGH
  end.

(** [SigmaValidationIssue]: the base dataclass has the single field [rules],
    a list of rules. *)
Record SigmaValidationIssue (V : Type) : Type := mkIssue {
  rules : list (SigmaRule V);
  issue_class : IssueClass;
}.
Arguments mkIssue {V} _ _.
Arguments rules {V} _.
Arguments issue_class {V} _.

(** What a validator passes as first argument of an issue constructor: most
    pass the rule, [SigmahqLevelExistenceValidator] passes a one-element
    list. *)
Inductive RulesArg (V : Type) : Type :=
| ARule (rule : SigmaRule V)
| ARuleList (rules : list (SigmaRule V)).
Arguments ARule {V} _.
Arguments ARuleList {V} _.

(** The base class's [__post_init__] makes [rules] a list when a single rule
    was given. *)
Definition post_init {V} (a : RulesArg V) : list (SigmaRule V) :=
  match a with
  | ARule rule => [rule]
  | ARuleList rules => rules
  end.

(** Calling the issue dataclass [cls] with [a] as its first argument. *)
Definition Issue {V} (a : RulesArg V) (cls : IssueClass) : SigmaValidationIssue V :=
  mkIssue (post_init a) cls.

(** ** Configuration: [config = ConfigHQ()]

    [config.py] builds the tables from data files; the validators read
    them only, so the tables are a parameter of every check. *)
Record ConfigHQ : Type := mkConfig {
  sigmahq_logsource_cast : gmap SigmaLogSource (list string);
  sigmahq_logsource_unicast : gmap SigmaLogSource (list string);
  sigmahq_fp_banned_word : list string;
  sigmahq_fp_typo_word : list string;
  sigmahq_link_in_description : list string;
}.

(** ** Rule validators ([metadata.py]) *)

Section Metadata.
Context {V : Type}.
Variable config : ConfigHQ.

Implicit Types (rule : SigmaRule V) (fp fp_entry : string).

Definition SigmahqStatusExistenceValidator_validate rule
  : result (list (SigmaValidationIssue V)) :=
  match status rule with
  | None => Ok [Issue (ARule rule) SigmahqStatusExistenceIssue]
  | Some _ => Ok []
  end.

(** [rule.status and rule.status.name in ["DEPRECATED", "UNSUPPORTED"]] *)
Definition SigmahqStatusValidator_validate rule
  : result (list (SigmaValidationIssue V)) :=
  match status rule with
  | Some s =>
      if decide (status_name s ∈ ["DEPRECATED"; "UNSUPPORTED"])
      then Ok [Issue (ARule rule) SigmahqStatusIssue]
      else Ok []
  | None => Ok []
  end.

Definition SigmahqDateExistenceValidator_validate rule
  : result (list (SigmaValidationIssue V)) :=
  match date rule with
  | None => Ok [Issue (ARule rule) SigmahqDateExistenceIssue]
  | Some _ => Ok []
  end.

Definition SigmahqDescriptionExistenceValidator_validate rule
  : result (list (SigmaValidationIssue V)) :=
  match description rule with
  | None => Ok [Issue (ARule rule) SigmahqDescriptionExistenceIssue]
  | Some _ => Ok []
  end.

(** [rule.description is not None and len(rule.description) < 16] *)
Definition SigmahqDescriptionLengthValidator_validate rule
  : result (list (SigmaValidationIssue V)) :=
  match description rule with
  | Some d =>
      if decide (Py.len d < 16)
      then Ok [Issue (ARule rule) SigmahqDescriptionLengthIssue]
      else Ok []
  | None => Ok []
  end.

(** The one validator that wraps the rule in a list itself. *)
Definition SigmahqLevelExistenceValidator_validate rule
  : result (list (SigmaValidationIssue V)) :=
  match level rule with
  | None => Ok [Issue (ARuleList [rule]) SigmahqLevelExistenceIssue]
  | Some _ => Ok []
  end.

(** The loop of [SigmahqFalsepositivesCapitalValidator.validate]; the
    accumulator is the list [false_positive]. *)
Fixpoint capital_loop rule (fps : list string)
    (false_positive : list (SigmaValidationIssue V))
  : result (list (SigmaValidationIssue V)) :=
  match fps with
  | [] => Ok false_positive
  | fp :: fps' =>
      c ← Py.getitem fp 0;
      if decide (Py.upper c ≠ c) then
        w ← Py.list_getitem (Py.split " " fp) 0;
        capital_loop rule fps'
          (false_positive ++ [Issue (ARule rule) (SigmahqFalsepositivesCapitalIssue w)])
      else capital_loop rule fps' false_positive
  end.

(** [if rule.falsepositives:] is true of a non-empty list; on the empty
    list the loop does nothing either. *)
Definition SigmahqFalsepositivesCapitalValidator_validate rule
  : result (list (SigmaValidationIssue V)) :=
  match falsepositives rule with
  | [] => Ok []
  | fps => capital_loop rule fps []
  end.

(** The three nested loops of the banned-word validator, innermost
    first. *)
Fixpoint banned_word_loop rule fp (words : list string)
    (banned_words : list (SigmaValidationIssue V))
  : list (SigmaValidationIssue V) :=
  match words with
  | [] => banned_words
  | banned_word :: words' =>
      if decide (Py.strip (Py.lower fp) = banned_word)
      then banned_word_loop rule fp words'
             (banned_words ++ [Issue (ARule rule) (SigmahqFalsepositivesBannedWordIssue fp)])
      else banned_word_loop rule fp words' banned_words
  end.

Fixpoint banned_token_loop rule (tokens : list string)
    (banned_words : list (SigmaValidationIssue V))
  : list (SigmaValidationIssue V) :=
  match tokens with
  | [] => banned_words
  | fp :: tokens' =>
      banned_token_loop rule tokens'
        (banned_word_loop rule fp (sigmahq_fp_banned_word config) banned_words)
  end.

Fixpoint banned_entry_loop rule (entries : list string)
    (banned_words : list (SigmaValidationIssue V))
  : list (SigmaValidationIssue V) :=
  match entries with
  | [] => banned_words
  | fp_entry :: entries' =>
      banned_entry_loop rule entries'
        (banned_token_loop rule (Py.split " " fp_entry) banned_words)
  end.

Definition SigmahqFalsepositivesBannedWordValidator_validate rule
  : result (list (SigmaValidationIssue V)) :=
  match falsepositives rule with
  | [] => Ok []
  | fps => Ok (banned_entry_loop rule fps [])
  end.

(** The same three loops with the substring test
    [fp.lower().strip() in typo]. *)
Fixpoint typo_word_loop rule fp (words : list string)
    (typos : list (SigmaValidationIssue V))
  : list (SigmaValidationIssue V) :=
  match words with
  | [] => typos
  | typo :: words' =>
      if Py.contains (Py.strip (Py.lower fp)) typo
      then typo_word_loop rule fp words'
             (typos ++ [Issue (ARule rule) (SigmahqFalsepositivesTypoWordIssue fp)])
      else typo_word_loop rule fp words' typos
  end.

Fixpoint typo_token_loop rule (tokens : list string)
    (typos : list (SigmaValidationIssue V))
  : list (SigmaValidationIssue V) :=
  match tokens with
  | [] => typos
  | fp :: tokens' =>
      typo_token_loop rule tokens'
        (typo_word_loop rule fp (sigmahq_fp_typo_word config) typos)
  end.

Fixpoint typo_entry_loop rule (entries : list string)
    (typos : list (SigmaValidationIssue V))
  : list (SigmaValidationIssue V) :=
  match entries with
  | [] => typos
  | fp_entry :: entries' =>
      typo_entry_loop rule entries'
        (typo_token_loop rule (Py.split " " fp_entry) typos)
  end.

Definition SigmahqFalsepositivesTypoWordValidator_validate rule
  : result (list (SigmaValidationIssue V)) :=
  match falsepositives rule with
  | [] => Ok []
  | fps => Ok (typo_entry_loop rule fps [])
  end.

(** [for link in ...: if link in rule.description.lower(): return [...]] *)
Fixpoint link_loop rule (d : string) (links : list string)
  : list (SigmaValidationIssue V) :=
  match links with
  | [] => []
  | link :: links' =>
      if Py.contains link (Py.lower d)
      then [Issue (ARule rule) SigmahqLinkInDescriptionIssue]
      else link_loop rule d links'
  end.

(** [rule.description and rule.references == []]: an empty description is
    false. *)
Definition SigmahqLinkInDescriptionValidator_validate rule
  : result (list (SigmaValidationIssue V)) :=
  match description rule with
  | Some d =>
      if decide (d ≠ "" ∧ references rule = [])
      then Ok (link_loop rule d (sigmahq_link_in_description config))
      else Ok []
  | None => Ok []
  end.

Definition SigmahqUnknownFieldValidator_validate rule
  : result (list (SigmaValidationIssue V)) :=
  if decide (0 < length (custom_attributes rule))
  then Ok [Issue (ARule rule) (SigmahqUnknownFieldIssue (fst <$> custom_attributes rule))]
  else Ok [].

End Metadata.

(** ** Detection item validators ([field.py]) *)

(** What a detection item validator keeps on [self]: [self.rule], set by the
    base class's [validate], and for the two catalog checks [self.fields]
    and [self.unifields], set by their own [validate]. *)
Record Self (V : Type) : Type := mkSelf {
  self_rule : SigmaRule V;
  self_fields : list string;
  self_unifields : list string;
}.
Arguments mkSelf {V} _ _ _.
Arguments self_rule {V} _.
Arguments self_fields {V} _.
Arguments self_unifields {V} _.

Section Traversal.
Context {V : Type}.
Variable validate_detection_item :
  SigmaDetectionItem V -> list (SigmaValidationIssue V).

(** [SigmaDetectionItemValidator.validate_detection]: items in order,
    nested detections visited in place. *)
Fixpoint validate_detection (detection : SigmaDetection V)
  : list (SigmaValidationIssue V) :=
  match detection with
  | Detection detection_items =>
      (fix items (l : list (SigmaDetectionItem V + SigmaDetection V)) :=
         match l with
         | [] => []
         | inl detection_item :: l' =>
             validate_detection_item detection_item ++ items l'
         | inr sub :: l' => validate_detection sub ++ items l'
         end) detection_items
  end.

(** [SigmaDetectionValidator.validate] after [self.rule = rule]: every
    named detection of the rule in turn. *)
Definition validate_detections (rule : SigmaRule V)
  : list (SigmaValidationIssue V) :=
  concat (map (fun nd => validate_detection nd.2) (detections rule)).

End Traversal.

Section Field.
Context {V : Type} `{!SigmaType V}.
Variable config : ConfigHQ.

Implicit Types (rule : SigmaRule V) (self : Self V)
  (detection_item : SigmaDetectionItem V).

(** A validator without attributes of its own. *)
Definition plain_self rule : Self V := mkSelf rule [] [].

(** [detection_item.field and " " in detection_item.field] *)
Definition SigmahqSpaceFieldNameValidator_validate_detection_item
    self detection_item : list (SigmaValidationIssue V) :=
  match field detection_item with
  | Some f =>
      if bool_decide (f ≠ "") && Py.contains " " f
      then [Issue (ARule (self_rule self)) (SigmahqSpaceFieldNameIssue f)]
      else []
  | None => []
  end.

Definition SigmahqSpaceFieldNameValidator_validate rule
  : result (list (SigmaValidationIssue V)) :=
  Ok (validate_detections
        (SigmahqSpaceFieldNameValidator_validate_detection_item (plain_self rule))
        rule).

Definition SigmahqFieldnameCastValidator_validate_detection_item
    self detection_item : list (SigmaValidationIssue V) :=
  match field detection_item with
  | Some f =>
      if bool_decide (Py.lower f ∈ self_unifields self)
         && negb (bool_decide (f ∈ self_fields self))
      then [Issue (ARule (self_rule self)) (SigmahqFieldnameCastIssue f)]
      else []
  | None => []
  end.

(** Lines 62-64: the logsource is resolved by key membership in
    [sigmahq_logsource_cast]; both tables are then indexed with it. *)
Definition SigmahqFieldnameCastValidator_resolve rule
  : option (result (Self V)) :=
  if decide (is_Some (sigmahq_logsource_cast config !! logsource rule)) then
    Some (fields ← Py.dict_getitem (sigmahq_logsource_cast config) (logsource rule);
          unifields ← Py.dict_getitem (sigmahq_logsource_unicast config) (logsource rule);
          mret (mkSelf rule fields unifields))
  else None.

Definition SigmahqFieldnameCastValidator_validate rule
  : result (list (SigmaValidationIssue V)) :=
  match SigmahqFieldnameCastValidator_resolve rule with
  | Some r =>
      self ← r;
      mret (validate_detections
              (SigmahqFieldnameCastValidator_validate_detection_item self) rule)
  | None => Ok []
  end.

Definition SigmahqInvalidFieldnameValidator_validate_detection_item
    self detection_item : list (SigmaValidationIssue V) :=
  match field detection_item with
  | Some f =>
      if negb (bool_decide (Py.lower f ∈ self_unifields self))
      then [Issue (ARule (self_rule self)) (SigmahqInvalidFieldnameIssue f)]
      else []
  | None => []
  end.

(** Lines 92-94. *)
Definition SigmahqInvalidFieldnameValidator_resolve rule
  : option (result (Self V)) :=
  if decide (is_Some (sigmahq_logsource_cast config !! logsource rule)) then
    Some (fields ← Py.dict_getitem (sigmahq_logsource_cast config) (logsource rule);
          unifields ← Py.dict_getitem (sigmahq_logsource_unicast config) (logsource rule);
          mret (mkSelf rule fields unifields))
  else None.

Definition SigmahqInvalidFieldnameValidator_validate rule
  : result (list (SigmaValidationIssue V)) :=
  match SigmahqInvalidFieldnameValidator_resolve rule with
  | Some r =>
      self ← r;
      mret (validate_detections
              (SigmahqInvalidFieldnameValidator_validate_detection_item self) rule)
  | None => Ok []
  end.

(** First definition of [SigmahqInvalidAllModifierValidator] (lines
    117-129). *)
Definition SigmahqInvalidAllModifierValidator_validate_detection_item
    self detection_item : list (SigmaValidationIssue V) :=
  if bool_decide (SigmaAllModifier ∈ modifiers detection_item)
     && bool_decide (length (value detection_item) < 2)
  then [Issue (ARule (self_rule self))
          (SigmahqInvalidAllModifierIssue (field detection_item))]
  else [].

(** Second definition of the same class (lines 189-201). *)
Definition SigmahqInvalidAllModifierValidator_validate_detection_item'
    self detection_item : list (SigmaValidationIssue V) :=
  if bool_decide (SigmaAllModifier ∈ modifiers detection_item)
     && bool_decide (length (value detection_item) < 2)
  then [Issue (ARule (self_rule self))
          (SigmahqInvalidAllModifierIssue (field detection_item))]
  else [].

Definition SigmahqInvalidAllModifierValidator_validate rule
  : result (list (SigmaValidationIssue V)) :=
  Ok (validate_detections
        (SigmahqInvalidAllModifierValidator_validate_detection_item (plain_self rule))
        rule).

Definition SigmahqInvalidAllModifierValidator_validate' rule
  : result (list (SigmaValidationIssue V)) :=
  Ok (validate_detections
        (SigmahqInvalidAllModifierValidator_validate_detection_item' (plain_self rule))
        rule).

(** The condition of the "value is case sensitive" branch. *)
Definition case_sensitive_modifiers detection_item : bool :=
  bool_decide (SigmaBase64Modifier ∈ modifiers detection_item)
  || bool_decide (SigmaBase64OffsetModifier ∈ modifiers detection_item)
  || bool_decide (SigmaRegularExpressionDotAllFlagModifier ∈ modifiers detection_item)
  || bool_decide (SigmaRegularExpressionFlagModifier ∈ modifiers detection_item)
  || bool_decide (SigmaRegularExpressionIgnoreCaseFlagModifier ∈ modifiers detection_item)
  || bool_decide (SigmaRegularExpressionModifier ∈ modifiers detection_item)
  || bool_decide (SigmaRegularExpressionMultilineFlagModifier ∈ modifiers detection_item)
  || bool_decide (SigmaCaseSensitiveModifier ∈ modifiers detection_item).

(** The first loop: [value_see] holds the values themselves. *)
Fixpoint duplicate_loop_sensitive self detection_item
    (vs : list V) (value_see : list V) : list (SigmaValidationIssue V) :=
  match vs with
  | [] => []
  | v :: vs' =>
      if decide (v ∈ value_see)
      then [Issue (ARule (self_rule self))
              (SigmahqFieldDuplicateValueIssue (field detection_item) (str v))]
      else duplicate_loop_sensitive self detection_item vs' (value_see ++ [v])
  end.

(** The second loop: [value_see] holds [str(v).lower()]. *)
Fixpoint duplicate_loop_insensitive self detection_item
    (vs : list V) (value_see : list string) : list (SigmaValidationIssue V) :=
  match vs with
  | [] => []
  | v :: vs' =>
      if decide (Py.lower (str v) ∈ value_see)
      then [Issue (ARule (self_rule self))
              (SigmahqFieldDuplicateValueIssue (field detection_item) (str v))]
      else duplicate_loop_insensitive self detection_item vs'
             (value_see ++ [Py.lower (str v)])
  end.

Definition SigmahqFieldDuplicateValueValidator_validate_detection_item
    self detection_item : list (SigmaValidationIssue V) :=
  if case_sensitive_modifiers detection_item
  then duplicate_loop_sensitive self detection_item (value detection_item) []
  else duplicate_loop_insensitive self detection_item (value detection_item) [].

Definition SigmahqFieldDuplicateValueValidator_validate rule
  : result (list (SigmaValidationIssue V)) :=
  Ok (validate_detections
        (SigmahqFieldDuplicateValueValidator_validate_detection_item (plain_self rule))
        rule).

Definition SigmahqFieldUserValidator_validate_detection_item
    self detection_item : list (SigmaValidationIssue V) :=
  match field detection_item, value detection_item with
  | Some f, [v] =>
      if bool_decide (f ≠ "") && Py.contains "user" (Py.lower f) then
        let user := str v in
        if Py.contains "AUTORI" user || Py.contains "AUTHORI" user
        then [Issue (ARule (self_rule self)) (SigmahqFieldUserIssue f user)]
        else []
      else []
  | _, _ => []
  end.

Definition SigmahqFieldUserValidator_validate rule
  : result (list (SigmaValidationIssue V)) :=
  Ok (validate_detections
        (SigmahqFieldUserValidator_validate_detection_item (plain_self rule))
        rule).

End Field.

(** ** The check set *)

(** The validator classes the two modules leave bound after import:
    those of [metadata.py], then those of [field.py], each in the order of
    its (last) declaration.  [SigmahqInvalidAllModifierValidator] is
    declared twice in [field.py]; the name ends up bound to the second
    declaration. *)
Inductive Validator : Set :=
| SigmahqStatusExistenceValidator
| SigmahqStatusValidator
| SigmahqDateExistenceValidator
| SigmahqDescriptionExistenceValidator
| SigmahqDescriptionLengthValidator
| SigmahqLevelExistenceValidator
| SigmahqFalsepositivesCapitalValidator
| SigmahqFalsepositivesBannedWordValidator
| SigmahqFalsepositivesTypoWordValidator
| SigmahqLinkInDescriptionValidator
| SigmahqUnknownFieldValidator
| SigmahqSpaceFieldNameValidator
| SigmahqFieldnameCastValidator
| SigmahqInvalidFieldnameValidator
| SigmahqFieldDuplicateValueValidator
| SigmahqInvalidAllModifierValidator
| SigmahqFieldUserValidator.

Definition all_validators : list Validator :=
  [ SigmahqStatusExistenceValidator; SigmahqStatusValidator;
    SigmahqDateExistenceValidator; SigmahqDescriptionExistenceValidator;
    SigmahqDescriptionLengthValidator; SigmahqLevelExistenceValidator;
    SigmahqFalsepositivesCapitalValidator; SigmahqFalsepositivesBannedWordValidator;
    SigmahqFalsepositivesTypoWordValidator; SigmahqLinkInDescriptionValidator;
    SigmahqUnknownFieldValidator;
    SigmahqSpaceFieldNameValidator; SigmahqFieldnameCastValidator;
    SigmahqInvalidFieldnameValidator; SigmahqFieldDuplicateValueValidator;
    SigmahqInvalidAllModifierValidator; SigmahqFieldUserValidator ].

Section CheckSet.
Context {V : Type} `{!SigmaType V}.
Variable config : ConfigHQ.

(** [validator.validate(rule)] *)
Definition validate (validator : Validator) (rule : SigmaRule V)
  : result (list (SigmaValidationIssue V)) :=
  match validator with
  | SigmahqStatusExistenceValidator => SigmahqStatusExistenceValidator_validate rule
  | SigmahqStatusValidator => SigmahqStatusValidator_validate rule
  | SigmahqDateExistenceValidator => SigmahqDateExistenceValidator_validate rule
  | SigmahqDescriptionExistenceValidator =>
      SigmahqDescriptionExistenceValidator_validate rule
  | SigmahqDescriptionLengthValidator => SigmahqDescriptionLengthValidator_validate rule
  | SigmahqLevelExistenceValidator => SigmahqLevelExistenceValidator_validate rule
  | SigmahqFalsepositivesCapitalValidator =>
      SigmahqFalsepositivesCapitalValidator_validate rule
  | SigmahqFalsepositivesBannedWordValidator =>
      SigmahqFalsepositivesBannedWordValidator_validate config rule
  | SigmahqFalsepositivesTypoWordValidator =>
      SigmahqFalsepositivesTypoWordValidator_validate config rule
  | SigmahqLinkInDescriptionValidator =>
      SigmahqLinkInDescriptionValidator_validate config rule
  | SigmahqUnknownFieldValidator => SigmahqUnknownFieldValidator_validate rule
  | SigmahqSpaceFieldNameValidator => SigmahqSpaceFieldNameValidator_validate rule
  | SigmahqFieldnameCastValidator => SigmahqFieldnameCastValidator_validate config rule
  | SigmahqInvalidFieldnameValidator =>
      SigmahqInvalidFieldnameValidator_validate config rule
  | SigmahqFieldDuplicateValueValidator =>
      SigmahqFieldDuplicateValueValidator_validate rule
  | SigmahqInvalidAllModifierValidator =>
      SigmahqInvalidAllModifierValidator_validate' rule
  | SigmahqFieldUserValidator => SigmahqFieldUserValidator_validate rule
  end.

(** Running a selection of checks over one rule: the issues of each check
    in turn; an exception of a check is not caught. *)
Fixpoint validate_rule (validators : list Validator) (rule : SigmaRule V)
  : result (list (SigmaValidationIssue V)) :=
  match validators with
  | [] => Ok []
  | validator :: validators' =>
      issues ← validate validator rule;
      more ← validate_rule validators' rule;
      mret (issues ++ more)
  end.

End CheckSet.


(** ** Notions used in the statements *)

(** A check fires when it returns at least one issue. *)
Definition fires {V} (issues : list (SigmaValidationIssue V)) : Prop := issues ≠ [].

(** The word an issue of the falsepositive checks carries. *)
Definition carried_word {V} (i : SigmaValidationIssue V) : option string :=
  match issue_class i with
  | SigmahqFalsepositivesCapitalIssue w
  | SigmahqFalsepositivesBannedWordIssue w
  | SigmahqFalsepositivesTypoWordIssue w => Some w
  | _ => None
  end.

(** The tokens of all falsepositive entries, as [split(" ")] gives them. *)
Definition fp_tokens (fps : list string) : list string :=
  fps ≫= Py.split " ".

(** How many of these tokens are the empty string. *)
Definition empty_tokens (fps : list string) : nat :=
  length (filter (fun t => t = "") (fp_tokens fps)).

(** The text of an entry up to its first space. *)
Fixpoint up_to_first_space (s : string) : string :=
  match s with
  | EmptyString => EmptyString
  | String c s' => if decide (c = " "%char) then EmptyString else String c (up_to_first_space s')
  end.

(** The entry has a first character and it is not an uppercase letter. *)
Definition first_char_not_uppercase (s : string) : bool :=
  match s with
  | EmptyString => false
  | String c _ => negb (Py.is_ascii_upper c)
  end.

(** The entry has a first character and upper-casing changes it: it is a
    lowercase letter. *)
Definition first_char_lowercase (s : string) : bool :=
  match s with
  | EmptyString => false
  | String c _ => Py.is_ascii_lower c
  end.

(** The normal form under which the Duplicate-value check compares values:
    the value itself under a case-sensitive modifier, else its lowercased
    rendering. *)
Definition normalized `{SigmaType V} (d : SigmaDetectionItem V) (v : V) : V + string :=
  if case_sensitive_modifiers d then inl v else inr (Py.lower (str v)).

(** The rule has exactly one detection item, [d], under the name [name]. *)
Definition single_item {V} (rule : SigmaRule V) (name : string)
    (d : SigmaDetectionItem V) : Prop :=
  detections rule = [(name, Detection [inl d])].

(** The three components [SigmaLogSource] is compared on. *)
Definition triple (ls : SigmaLogSource) : option string * option string * option string :=
  (category ls, product ls, service ls).


(** The issue refers to [rule] and to no other rule. *)
Definition refers_to {V} (rule : SigmaRule V) (i : SigmaValidationIssue V) : Prop :=
  rules i = [rule].

(** Case analysis on every test of a check that returns at most one issue. *)
Ltac item_check :=
  repeat match goal with
    | |- context [match ?x with _ => _ end] => destruct x; simpl
    end;
  repeat constructor.

(** The first value of [vs] whose key is among [seen] or among the keys of
    the values before it. *)
Fixpoint first_dup {V K} `{EqDecision K} (key : V -> K) (vs : list V) (seen : list K)
  : option V :=
  match vs with
  | [] => None
  | v :: vs' =>
      if decide (key v ∈ seen) then Some v
      else first_dup key vs' (seen ++ [key v])
  end.

(** The issue the Duplicate-value check returns for the value [v]. *)
Definition duplicate_issue `{SigmaType V} (self : Self V) (d : SigmaDetectionItem V)
    (v : V) : SigmaValidationIssue V :=
  mkIssue [self_rule self] (SigmahqFieldDuplicateValueIssue (field d) (str v)).

(** The issues the Falsepositive-typo-word check adds for one token: one
    for each typo word the trimmed, lowercased token is a substring of. *)
Definition typo_issues {V} (rule : SigmaRule V) (words : list string) (fp : string)
  : list (SigmaValidationIssue V) :=
  (fun _ => mkIssue [rule] (SigmahqFalsepositivesTypoWordIssue fp))
    <$> filter (fun typo => Py.contains (Py.strip (Py.lower fp)) typo = true) words.

(** The issue carries the empty token. *)
Definition carries_empty_token {V} (i : SigmaValidationIssue V) : Prop :=
  carried_word i = Some "".

#[global] Instance carries_empty_token_dec {V} (i : SigmaValidationIssue V) :
  Decision (carries_empty_token i).
Proof. unfold carries_empty_token. apply _. Defined.

(** The modifier classes whose presence makes the Duplicate-value check
    compare the values themselves. *)
Definition case_sensitive_classes : list SigmaModifier :=
  [ SigmaBase64Modifier; SigmaBase64OffsetModifier;
    SigmaRegularExpressionDotAllFlagModifier; SigmaRegularExpressionFlagModifier;
    SigmaRegularExpressionIgnoreCaseFlagModifier; SigmaRegularExpressionModifier;
    SigmaRegularExpressionMultilineFlagModifier; SigmaCaseSensitiveModifier ].

(** The tokens put together again with the separator between them. *)
Fixpoint join_tokens (sep : ascii) (tokens : list string) : string :=
  match tokens with
  | [] => EmptyString
  | [t] => t
  | t :: ts => t +:+ String sep (join_tokens sep ts)
  end.

(** ** Sample data

    String values given by the text [str] renders them as. *)
Inductive SigmaString : Set := mkSigmaString (s : string).

#[global] Instance SigmaString_eq_dec : EqDecision SigmaString.
Proof. solve_decision. Defined.

#[global] Instance SigmaString_SigmaType : SigmaType SigmaString :=
  {| str := fun v => match v with mkSigmaString s => s end |}.

Definition windows_process_creation : SigmaLogSource :=
  mkLogSource (Some "process_creation") (Some "windows") None.

(** A rule with every optional attribute absent and one named detection. *)
Definition bare_rule (fps : list string)
    (items : list (SigmaDetectionItem SigmaString)) : SigmaRule SigmaString :=
  mkRule None None None None fps [] windows_process_creation
    [("selection", Detection (inl <$> items))] [].

Definition empty_config : ConfigHQ := mkConfig ∅ ∅ [] [] [].

(** A catalog that knows one logsource, with two fields. *)
Definition windows_catalog : ConfigHQ :=
  mkConfig {[ windows_process_creation := ["Image"; "User"] ]}
           {[ windows_process_creation := ["image"; "user"] ]}
           [] [] [].

Definition linux_process_creation : SigmaLogSource :=
  mkLogSource (Some "process_creation") (Some "linux") None.

(** A rule on a logsource the catalog does not know. *)
Definition linux_rule : SigmaRule SigmaString :=
  mkRule None None None None [] [] linux_process_creation
    [("selection", Detection [inl (mkItem (Some "NoSuchField") [] [mkSigmaString "x"])])] [].


(** The rule of the end-to-end example: no status, date, description or
    level, no falsepositives, and one detection item on the field
    [User Name]. *)
Definition user_name_item : SigmaDetectionItem SigmaString :=
  mkItem (Some "User Name") [] [mkSigmaString "admin"].

Definition user_name_rule (ls : SigmaLogSource) : SigmaRule SigmaString :=
  mkRule None None None None [] [] ls
    [("selection", Detection [inl user_name_item])] [].

(** ** Further notions used in the statements *)

(** Every character of the string passes the test. *)
Fixpoint all_chars (P : ascii -> bool) (s : string) : bool :=
  match s with
  | EmptyString => true
  | String c s' => P c && all_chars P s'
  end.

(** A character a trimmed, lowercased token can hold: neither a space nor
    an uppercase letter. *)
Definition token_char (c : ascii) : bool :=
  negb (bool_decide (c = " "%char)) && negb (Py.is_ascii_upper c).

(** The issues the Falsepositive-banned-word check adds for one token: one
    for each banned word equal to the trimmed, lowercased token. *)
Definition banned_issues {V} (rule : SigmaRule V) (words : list string) (fp : string)
  : list (SigmaValidationIssue V) :=
  (fun _ => mkIssue [rule] (SigmahqFalsepositivesBannedWordIssue fp))
    <$> filter (fun banned_word => Py.strip (Py.lower fp) = banned_word) words.

(** The configuration with another list of banned words. *)
Definition with_banned_words (config : ConfigHQ) (words : list string) : ConfigHQ :=
  mkConfig (sigmahq_logsource_cast config) (sigmahq_logsource_unicast config)
    words (sigmahq_fp_typo_word config) (sigmahq_link_in_description config).

(** The issue class each validator builds its issues from. *)
Definition own_issue_class (validator : Validator) (c : IssueClass) : Prop :=
  match validator, c with
  | SigmahqStatusExistenceValidator, SigmahqStatusExistenceIssue
  | SigmahqStatusValidator, SigmahqStatusIssue
  | SigmahqDateExistenceValidator, SigmahqDateExistenceIssue
  | SigmahqDescriptionExistenceValidator, SigmahqDescriptionExistenceIssue
  | SigmahqDescriptionLengthValidator, SigmahqDescriptionLengthIssue
  | SigmahqLevelExistenceValidator, SigmahqLevelExistenceIssue
  | SigmahqFalsepositivesCapitalValidator, SigmahqFalsepositivesCapitalIssue _
  | SigmahqFalsepositivesBannedWordValidator, SigmahqFalsepositivesBannedWordIssue _
  | SigmahqFalsepositivesTypoWordValidator, SigmahqFalsepositivesTypoWordIssue _
  | SigmahqLinkInDescriptionValidator, SigmahqLinkInDescriptionIssue
  | SigmahqUnknownFieldValidator, SigmahqUnknownFieldIssue _
  | SigmahqSpaceFieldNameValidator, SigmahqSpaceFieldNameIssue _
  | SigmahqFieldnameCastValidator, SigmahqFieldnameCastIssue _
  | SigmahqInvalidFieldnameValidator, SigmahqInvalidFieldnameIssue _
  | SigmahqFieldDuplicateValueValidator, SigmahqFieldDuplicateValueIssue _ _
  | SigmahqInvalidAllModifierValidator, SigmahqInvalidAllModifierIssue _
  | SigmahqFieldUserValidator, SigmahqFieldUserIssue _ _ => True
  | _, _ => False
  end.

(** The severity declared for the issues of each validator. *)
Definition validator_severity (validator : Validator) : SigmaValidationIssueSeverity :=
  match validator with
  | SigmahqStatusValidator | SigmahqSpaceFieldNameValidator
  | SigmahqFieldnameCastValidator | SigmahqInvalidFieldnameValidator
  | SigmahqFieldDuplicateValueValidator | SigmahqInvalidAllModifierValidator
  | SigmahqFieldUserValidator => HIGH
  | _ => MEDIUM
  end.

(** [text] occurs in [s]. *)
Definition substring_of (text s : string) : Prop := ∃ a b, s = a +:+ text +:+ b.

(** The condition under which User-field-localization reports an item. *)
Definition localized_user `{SigmaType V} (d : SigmaDetectionItem V)
    (f : string) (v : V) : Prop :=
  field d = Some f ∧ value d = [v]
  ∧ substring_of "user" (Py.lower f)
  ∧ (substring_of "AUTORI" (str v) ∨ substring_of "AUTHORI" (str v)).

(** The condition under which Link-in-description reports a rule. *)
Definition link_in_description {V} (config : ConfigHQ) (rule : SigmaRule V) : Prop :=
  ∃ text link, description rule = Some text ∧ text ≠ "" ∧ references rule = []
               ∧ link ∈ sigmahq_link_in_description config
               ∧ substring_of link (Py.lower text).

(** A catalog entry and a detection item for the examples. *)
Definition image_self (rule : SigmaRule SigmaString) : Self SigmaString :=
  mkSelf rule ["Image"; "User"] ["image"; "user"].

(** A catalog whose lowercase table lacks the logsource of the first. *)
Definition broken_catalog : ConfigHQ :=
  mkConfig {[ windows_process_creation := ["Image"; "User"] ]} ∅ [] [] [].

(** * Properties *)

(** ** The string built-ins *)

Section Builtins.

Lemma append_nil b : "" +:+ b = b.
Proof. reflexivity. Qed.

Lemma append_cons c a b : String c a +:+ b = String c (a +:+ b).
Proof. reflexivity. Qed.

Lemma prefix_spec p s : String.prefix p s = true ↔ ∃ b, s = p +:+ b.
Proof.
  revert s. induction p as [|c p IH]; intros s; simpl.
  - split; [by exists s | by destruct s].
  - destruct s as [|c' s]; simpl;
      [split; [discriminate | intros [b Hb]; by rewrite append_cons in Hb]|].
    destruct (ascii_dec c c') as [->|Hne].
    + rewrite IH. split; intros [b Hb]; exists b; rewrite append_cons in *; congruence.
    + split; [done|]. intros [b Hb]. rewrite append_cons in Hb. congruence.
Qed.

Lemma contains_nil needle : Py.contains needle "" = String.prefix needle "".
Proof. by destruct needle. Qed.

Lemma contains_cons needle c hay :
  Py.contains needle (String c hay)
  = String.prefix needle (String c hay) || Py.contains needle hay.
Proof. reflexivity. Qed.

(** [Py.contains] is the substring relation. *)
Lemma contains_spec needle hay :
  Py.contains needle hay = true ↔ ∃ a b, hay = a +:+ needle +:+ b.
Proof.
  induction hay as [|c hay IH].
  - rewrite contains_nil, prefix_spec. split.
    + intros [b Hb]. by exists "", b.
    + intros (a & b & Hab). destruct a as [|c' a]; [by exists b|].
      by rewrite append_cons in Hab.
  - rewrite contains_cons, orb_true_iff, prefix_spec, IH. split.
    + intros [[b Hb]|(a & b & Hab)].
      * by exists "", b.
      * exists (String c a), b. by rewrite append_cons, Hab.
    + intros (a & b & Hab). destruct a as [|c' a].
      * left. by exists b.
      * right. rewrite append_cons in Hab. injection Hab as _ Hab. by exists a, b.
Qed.

Lemma split_nonempty sep s : Py.split sep s ≠ [].
Proof.
  destruct s as [|c s]; simpl; [done|].
  destruct (decide (c = sep)); [done|]. by destruct (Py.split sep s).
Qed.

(** Splitting loses nothing: joining the tokens gives the text back. *)
Lemma join_split sep s : join_tokens sep (Py.split sep s) = s.
Proof.
  induction s as [|c s IH]; simpl; [done|].
  pose proof (split_nonempty sep s) as Hne.
  destruct (decide (c = sep)) as [->|Hc];
    destruct (Py.split sep s) as [|w [|w' ws]]; try done.
  - simpl in *. by rewrite IH.
  - rewrite <- IH. reflexivity.
  - simpl in *. by rewrite IH.
  - rewrite <- IH. reflexivity.
Qed.

(** No token holds the separator. *)
Lemma split_tokens_no_sep sep s t :
  t ∈ Py.split sep s → ∀ i, String.get i t ≠ Some sep.
Proof.
  revert t. induction s as [|c s IH]; intros t; simpl.
  - intros ->%list_elem_of_singleton. by destruct i.
  - destruct (decide (c = sep)) as [->|Hne].
    + intros [->|Hin]%elem_of_cons; [by destruct i | by apply IH].
    + destruct (Py.split sep s) as [|w ws] eqn:E.
      * intros ->%list_elem_of_singleton. destruct i as [|[|i]]; simpl; congruence.
      * intros [->|Hin]%elem_of_cons.
        -- intros [|i]; simpl; [congruence|]. apply IH, list_elem_of_here.
        -- by apply IH, list_elem_of_further.
Qed.

End Builtins.
Example split_two_spaces : Py.split " " "a  b" = ["a"; ""; "b"].
Proof. reflexivity. Qed.
Example split_empty : Py.split " " "" = [""].
Proof. reflexivity. Qed.
Example split_leading : Py.split " " " a" = [""; "a"].
Proof. reflexivity. Qed.
Example strip_tabs : Py.strip (String (ascii_of_nat 9) "ab ") = "ab".
Proof. reflexivity. Qed.
Example lower_mixed : Py.lower "TargetUserName" = "targetusername".
Proof. reflexivity. Qed.
Example contains_user : Py.contains "user" "targetusername" = true.
Proof. reflexivity. Qed.


(** ** The traversal *)

Section TraversalFacts.
Context {V : Type}.
Implicit Types (f : SigmaDetectionItem V -> list (SigmaValidationIssue V)).

Lemma validate_detection_Forall (P : SigmaValidationIssue V -> Prop) f :
  (forall d, Forall P (f d)) ->
  forall detection, Forall P (validate_detection f detection).
Proof.
  intros Hf. fix IH 1. intros [items]. simpl.
  induction items as [|[d|sub] l IHl].
  - constructor.
  - apply Forall_app. split; [apply Hf | exact IHl].
  - apply Forall_app. split; [apply IH | exact IHl].
Qed.

Lemma validate_detections_Forall (P : SigmaValidationIssue V -> Prop) f rule :
  (forall d, Forall P (f d)) ->
  Forall P (validate_detections f rule).
Proof.
  intros Hf. unfold validate_detections.
  induction (detections rule) as [|nd l IHl]; simpl.
  - constructor.
  - apply Forall_app. split; [by apply validate_detection_Forall | exact IHl].
Qed.

Lemma validate_detections_single f rule name d :
  single_item rule name d -> validate_detections f rule = f d.
Proof.
  unfold single_item, validate_detections. intros ->. simpl.
  by rewrite !app_nil_r.
Qed.

End TraversalFacts.

(** ** Invalid-all-modifier *)

Section InvalidAllModifier.
Context {V : Type} `{!SigmaType V}.
Implicit Types (self : Self V) (d : SigmaDetectionItem V).

Lemma InvalidAllModifier_cases self d :
  SigmahqInvalidAllModifierValidator_validate_detection_item self d =
    [Issue (ARule (self_rule self)) (SigmahqInvalidAllModifierIssue (field d))]
    ∧ SigmaAllModifier ∈ modifiers d ∧ length (value d) < 2
  ∨ SigmahqInvalidAllModifierValidator_validate_detection_item self d = []
    ∧ ¬ (SigmaAllModifier ∈ modifiers d ∧ length (value d) < 2).
Proof.
  unfold SigmahqInvalidAllModifierValidator_validate_detection_item.
  destruct (bool_decide_reflect (SigmaAllModifier ∈ modifiers d)) as [Hm|Hm];
    destruct (bool_decide_reflect (length (value d) < 2)) as [Hl|Hl]; simpl;
    [left; done | right; split; [done | tauto] ..].
Qed.

(** C8. For every detection item the Invalid-all-modifier check fires
    exactly when [SigmaAllModifier] is among the modifiers and the value
    list has fewer than two entries; when it fires it returns one issue, of
    high severity, carrying the rule and the field.  So with the
    all-modifier and exactly one value it returns one issue, and with two
    or more values it returns none. *)
Theorem InvalidAllModifier_fires_iff self d :
  (fires (SigmahqInvalidAllModifierValidator_validate_detection_item self d)
   ↔ SigmaAllModifier ∈ modifiers d ∧ length (value d) < 2)
  ∧ (fires (SigmahqInvalidAllModifierValidator_validate_detection_item self d) →
     SigmahqInvalidAllModifierValidator_validate_detection_item self d
     = [mkIssue [self_rule self] (SigmahqInvalidAllModifierIssue (field d))]
     ∧ issue_severity (SigmahqInvalidAllModifierIssue (field d)) = HIGH)
  ∧ (SigmaAllModifier ∈ modifiers d → length (value d) = 1 →
     length (SigmahqInvalidAllModifierValidator_validate_detection_item self d) = 1)
  ∧ (2 ≤ length (value d) →
     SigmahqInvalidAllModifierValidator_validate_detection_item self d = []).
Proof.
  unfold fires.
  destruct (InvalidAllModifier_cases self d) as [(-> & Hm & Hl)|(-> & Hn)].
  - split_and!.
    + done.
    + done.
    + done.
    + intros ?; lia.
  - split_and!.
    + split; [done | tauto].
    + done.
    + intros Hin Hl. exfalso. apply Hn. split; [done | lia].
    + done.
Qed.

(** C9. The two declarations of [SigmahqInvalidAllModifierValidator] in
    [field.py] return the same issues (same condition, same issue class and
    so the same severity, same carried field) on every detection item, and
    so do their [validate] methods on every rule. *)
Theorem InvalidAllModifier_declarations_agree self d (rule : SigmaRule V) :
  SigmahqInvalidAllModifierValidator_validate_detection_item self d
  = SigmahqInvalidAllModifierValidator_validate_detection_item' self d
  ∧ SigmahqInvalidAllModifierValidator_validate rule
    = SigmahqInvalidAllModifierValidator_validate' rule.
Proof. split; reflexivity. Qed.

End InvalidAllModifier.

(** The all-modifier on one value and on two values. *)
Lemma InvalidAllModifier_fires_iff_witness :
  length (SigmahqInvalidAllModifierValidator_validate_detection_item
            (plain_self (bare_rule [] []))
            (mkItem (Some "CommandLine") [SigmaAllModifier] [mkSigmaString "a"])) = 1
  ∧ SigmahqInvalidAllModifierValidator_validate_detection_item
      (plain_self (bare_rule [] []))
      (mkItem (Some "CommandLine") [SigmaAllModifier]
         [mkSigmaString "a"; mkSigmaString "b"]) = [].
Proof.
  split.
  - apply (InvalidAllModifier_fires_iff (plain_self (bare_rule [] []))
             (mkItem (Some "CommandLine") [SigmaAllModifier] [mkSigmaString "a"])).
    + simpl. apply list_elem_of_here.
    + reflexivity.
  - apply (InvalidAllModifier_fires_iff (plain_self (bare_rule [] []))
             (mkItem (Some "CommandLine") [SigmaAllModifier]
                [mkSigmaString "a"; mkSigmaString "b"])).
    simpl. lia.
Defined.

(** ** User-field-localization *)

Section FieldUser.
Context {V : Type} `{!SigmaType V}.
Implicit Types (self : Self V) (d : SigmaDetectionItem V).

(** C1, as the code has it. For a detection item with field
    [TargetUserName] and a single value, the check returns one issue both
    when the value reads "NT AUTORITE\\Tout le monde" and when it reads
    "NT AUTHORITY\\Everyone": the second contains "AUTHORI". *)
Theorem FieldUser_fires_on_both_names self d v :
  field d = Some "TargetUserName" →
  value d = [v] →
  str v ∈ ["NT AUTORITE\\Tout le monde"; "NT AUTHORITY\\Everyone"] →
  SigmahqFieldUserValidator_validate_detection_item self d
  = [mkIssue [self_rule self] (SigmahqFieldUserIssue "TargetUserName" (str v))].
Proof.
  intros Hf Hv Hs.
  unfold SigmahqFieldUserValidator_validate_detection_item.
  rewrite Hf, Hv.
  apply elem_of_cons in Hs as [Hs|Hs]; [|apply list_elem_of_singleton in Hs];
    rewrite Hs; reflexivity.
Qed.

End FieldUser.

(** The same with one backslash in the value. *)
Example FieldUser_single_backslash :
  SigmahqFieldUserValidator_validate_detection_item (plain_self (bare_rule [] []))
    (mkItem (Some "TargetUserName") []
       [mkSigmaString (String.append "NT AUTHORITY" (String "\" "Everyone"))])
  ≠ [].
Proof. vm_compute. discriminate. Qed.

Lemma FieldUser_fires_on_both_names_witness :
  SigmahqFieldUserValidator_validate_detection_item (plain_self (bare_rule [] []))
    (mkItem (Some "TargetUserName") [] [mkSigmaString "NT AUTORITE\\Tout le monde"])
  = [mkIssue [bare_rule [] []]
       (SigmahqFieldUserIssue "TargetUserName" "NT AUTORITE\\Tout le monde")].
Proof.
  exact (FieldUser_fires_on_both_names (plain_self (bare_rule [] []))
           (mkItem (Some "TargetUserName") [] [mkSigmaString "NT AUTORITE\\Tout le monde"])
           (mkSigmaString "NT AUTORITE\\Tout le monde")
           eq_refl eq_refl (list_elem_of_here _ _)).
Defined.

(** C1, as the specification states it, fails on its second half: the
    check does fire on "NT AUTHORITY\\Everyone". *)
Lemma FieldUser_fires_on_NT_AUTHORITY :
  SigmahqFieldUserValidator_validate_detection_item (plain_self (bare_rule [] []))
    (mkItem (Some "TargetUserName") [] [mkSigmaString "NT AUTHORITY\\Everyone"])
  = [mkIssue [bare_rule [] []]
       (SigmahqFieldUserIssue "TargetUserName" "NT AUTHORITY\\Everyone")].
Proof. vm_compute. reflexivity. Qed.

(** ** Catalog checks and unknown logsources *)

Section Catalog.
Context {V : Type} `{!SigmaType V}.
Variable config : ConfigHQ.
Implicit Types (rule : SigmaRule V).

Lemma triple_inj ls1 ls2 : triple ls1 = triple ls2 → ls1 = ls2.
Proof. destruct ls1, ls2. unfold triple. simpl. congruence. Qed.

Lemma no_matching_key_lookup rule :
  (∀ ls fields, sigmahq_logsource_cast config !! ls = Some fields →
                triple ls ≠ triple (logsource rule)) →
  sigmahq_logsource_cast config !! logsource rule = None.
Proof.
  intros Hno. destruct (sigmahq_logsource_cast config !! logsource rule) eqn:E; [|done].
  exfalso. by eapply Hno.
Qed.

Lemma unknown_logsource_validate rule :
  (∀ ls fields, sigmahq_logsource_cast config !! ls = Some fields →
                triple ls ≠ triple (logsource rule)) →
  SigmahqFieldnameCastValidator_validate config rule = Ok []
  ∧ SigmahqInvalidFieldnameValidator_validate config rule = Ok [].
Proof.
  intros Hno. apply no_matching_key_lookup in Hno.
  unfold SigmahqFieldnameCastValidator_validate, SigmahqInvalidFieldnameValidator_validate,
    SigmahqFieldnameCastValidator_resolve, SigmahqInvalidFieldnameValidator_resolve.
  rewrite Hno.
  destruct (decide (is_Some None)) as [[x Hx]|_]; [discriminate|done].
Qed.

(** C6. The Field-cast-mismatch and Invalid-field-name checks resolve the
    logsource of a rule in the same way, by key membership in
    [sigmahq_logsource_cast]; and for a rule whose (category, product,
    service) triple equals that of no key of the catalog, both return the
    empty list of issues, whatever the detection items of the rule. *)
Theorem unknown_logsource_not_applicable rule :
  SigmahqFieldnameCastValidator_resolve config rule
  = SigmahqInvalidFieldnameValidator_resolve config rule
  ∧ ((∀ ls fields, sigmahq_logsource_cast config !! ls = Some fields →
                   triple ls ≠ triple (logsource rule)) →
     SigmahqFieldnameCastValidator_validate config rule = Ok []
     ∧ SigmahqInvalidFieldnameValidator_validate config rule = Ok []).
Proof.
  split; [reflexivity | apply unknown_logsource_validate].
Qed.

End Catalog.

Lemma unknown_logsource_not_applicable_witness :
  SigmahqFieldnameCastValidator_validate windows_catalog linux_rule = Ok []
  ∧ SigmahqInvalidFieldnameValidator_validate windows_catalog linux_rule = Ok [].
Proof.
  apply (unknown_logsource_not_applicable windows_catalog linux_rule).
  intros ls fields Hls. simpl in Hls.
  apply lookup_singleton_Some in Hls as [<- _]. discriminate.
Defined.

(** On a known logsource the same field is reported. *)
Example known_logsource_reports :
  SigmahqInvalidFieldnameValidator_validate windows_catalog
    (bare_rule [] [mkItem (Some "NoSuchField") [] [mkSigmaString "x"]])
  = Ok [mkIssue [bare_rule [] [mkItem (Some "NoSuchField") [] [mkSigmaString "x"]]]
          (SigmahqInvalidFieldnameIssue "NoSuchField")].
Proof. vm_compute. reflexivity. Qed.

(** ** Issues reference their rule *)

Section RuleReference.
Context {V : Type} `{!SigmaType V}.
Variable config : ConfigHQ.
Implicit Types (rule : SigmaRule V) (self : Self V) (d : SigmaDetectionItem V).

Local Hint Unfold refers_to : core.

Lemma capital_loop_refers rule fps acc :
  Forall (refers_to rule) acc →
  Forall (refers_to rule) (issues_of (capital_loop rule fps acc)).
Proof.
  revert acc. induction fps as [|fp fps IH]; intros acc Hacc; simpl; [done|].
  destruct (Py.getitem fp 0) as [c|e]; simpl; [|constructor].
  destruct (decide (Py.upper c ≠ c)); [|by apply IH].
  destruct (Py.list_getitem (Py.split " " fp) 0) as [w|e]; simpl; [|constructor].
  apply IH. apply Forall_app. split; [done|]. by repeat constructor.
Qed.

Lemma banned_word_loop_refers rule fp words acc :
  Forall (refers_to rule) acc →
  Forall (refers_to rule) (banned_word_loop rule fp words acc).
Proof.
  revert acc. induction words as [|w words IH]; intros acc Hacc; simpl; [done|].
  destruct (decide _); apply IH; [|done].
  apply Forall_app. split; [done|]. by repeat constructor.
Qed.

Lemma banned_token_loop_refers rule tokens acc :
  Forall (refers_to rule) acc →
  Forall (refers_to rule) (banned_token_loop config rule tokens acc).
Proof.
  revert acc. induction tokens as [|t tokens IH]; intros acc Hacc; simpl; [done|].
  by apply IH, banned_word_loop_refers.
Qed.

Lemma banned_entry_loop_refers rule entries acc :
  Forall (refers_to rule) acc →
  Forall (refers_to rule) (banned_entry_loop config rule entries acc).
Proof.
  revert acc. induction entries as [|e entries IH]; intros acc Hacc; simpl; [done|].
  by apply IH, banned_token_loop_refers.
Qed.

Lemma typo_word_loop_refers rule fp words acc :
  Forall (refers_to rule) acc →
  Forall (refers_to rule) (typo_word_loop rule fp words acc).
Proof.
  revert acc. induction words as [|w words IH]; intros acc Hacc; simpl; [done|].
  destruct (Py.contains _ _); apply IH; [|done].
  apply Forall_app. split; [done|]. by repeat constructor.
Qed.

Lemma typo_token_loop_refers rule tokens acc :
  Forall (refers_to rule) acc →
  Forall (refers_to rule) (typo_token_loop config rule tokens acc).
Proof.
  revert acc. induction tokens as [|t tokens IH]; intros acc Hacc; simpl; [done|].
  by apply IH, typo_word_loop_refers.
Qed.

Lemma typo_entry_loop_refers rule entries acc :
  Forall (refers_to rule) acc →
  Forall (refers_to rule) (typo_entry_loop config rule entries acc).
Proof.
  revert acc. induction entries as [|e entries IH]; intros acc Hacc; simpl; [done|].
  by apply IH, typo_token_loop_refers.
Qed.

Lemma link_loop_refers rule descr links :
  Forall (refers_to rule) (link_loop rule descr links).
Proof.
  induction links as [|l links IH]; simpl; [constructor|].
  destruct (Py.contains _ _); [by repeat constructor | done].
Qed.

Lemma SpaceFieldName_refers self d :
  Forall (refers_to (self_rule self))
    (SigmahqSpaceFieldNameValidator_validate_detection_item self d).
Proof. unfold SigmahqSpaceFieldNameValidator_validate_detection_item. item_check. Qed.

Lemma FieldnameCast_refers self d :
  Forall (refers_to (self_rule self))
    (SigmahqFieldnameCastValidator_validate_detection_item self d).
Proof. unfold SigmahqFieldnameCastValidator_validate_detection_item. item_check. Qed.

Lemma InvalidFieldname_refers self d :
  Forall (refers_to (self_rule self))
    (SigmahqInvalidFieldnameValidator_validate_detection_item self d).
Proof. unfold SigmahqInvalidFieldnameValidator_validate_detection_item. item_check. Qed.

Lemma InvalidAllModifier_refers self d :
  Forall (refers_to (self_rule self))
    (SigmahqInvalidAllModifierValidator_validate_detection_item' self d).
Proof. unfold SigmahqInvalidAllModifierValidator_validate_detection_item'. item_check. Qed.

Lemma duplicate_loop_sensitive_refers self d vs seen :
  Forall (refers_to (self_rule self)) (duplicate_loop_sensitive self d vs seen).
Proof.
  revert seen. induction vs as [|v vs IH]; intros seen; simpl; [constructor|].
  destruct (decide _); [by repeat constructor | apply IH].
Qed.

Lemma duplicate_loop_insensitive_refers self d vs seen :
  Forall (refers_to (self_rule self)) (duplicate_loop_insensitive self d vs seen).
Proof.
  revert seen. induction vs as [|v vs IH]; intros seen; simpl; [constructor|].
  destruct (decide _); [by repeat constructor | apply IH].
Qed.

Lemma FieldDuplicateValue_refers self d :
  Forall (refers_to (self_rule self))
    (SigmahqFieldDuplicateValueValidator_validate_detection_item self d).
Proof.
  unfold SigmahqFieldDuplicateValueValidator_validate_detection_item.
  destruct (case_sensitive_modifiers d);
    [apply duplicate_loop_sensitive_refers | apply duplicate_loop_insensitive_refers].
Qed.

Lemma FieldUser_refers self d :
  Forall (refers_to (self_rule self))
    (SigmahqFieldUserValidator_validate_detection_item self d).
Proof. unfold SigmahqFieldUserValidator_validate_detection_item. item_check. Qed.

Lemma resolved_self_rule rule r self :
  SigmahqFieldnameCastValidator_resolve config rule = Some r →
  r = Ok self → self_rule self = rule.
Proof.
  unfold SigmahqFieldnameCastValidator_resolve.
  destruct (decide _); [|done]. intros [= <-].
  destruct (Py.dict_getitem (sigmahq_logsource_cast config) _); simpl; [|done].
  destruct (Py.dict_getitem (sigmahq_logsource_unicast config) _); simpl; [|done].
  by intros [= <-].
Qed.

Lemma validate_refers validator rule :
  Forall (refers_to rule) (issues_of (validate config validator rule)).
Proof.
  destruct validator; simpl.
  - unfold SigmahqStatusExistenceValidator_validate. item_check.
  - unfold SigmahqStatusValidator_validate. item_check.
  - unfold SigmahqDateExistenceValidator_validate. item_check.
  - unfold SigmahqDescriptionExistenceValidator_validate. item_check.
  - unfold SigmahqDescriptionLengthValidator_validate. item_check.
  - unfold SigmahqLevelExistenceValidator_validate. item_check.
  - unfold SigmahqFalsepositivesCapitalValidator_validate.
    destruct (falsepositives rule); [constructor|]. by apply capital_loop_refers.
  - unfold SigmahqFalsepositivesBannedWordValidator_validate.
    destruct (falsepositives rule); [constructor|]. by apply banned_entry_loop_refers.
  - unfold SigmahqFalsepositivesTypoWordValidator_validate.
    destruct (falsepositives rule); [constructor|]. by apply typo_entry_loop_refers.
  - unfold SigmahqLinkInDescriptionValidator_validate.
    destruct (description rule); [|constructor].
    destruct (decide _); [apply link_loop_refers | constructor].
  - unfold SigmahqUnknownFieldValidator_validate. item_check.
  - apply validate_detections_Forall, (SpaceFieldName_refers (plain_self rule)).
  - unfold SigmahqFieldnameCastValidator_validate.
    destruct (SigmahqFieldnameCastValidator_resolve config rule) as [[self|e]|] eqn:E;
      simpl; try constructor.
    apply validate_detections_Forall. intros d.
    rewrite <- (resolved_self_rule rule _ self E eq_refl). apply FieldnameCast_refers.
  - unfold SigmahqInvalidFieldnameValidator_validate.
    change (SigmahqInvalidFieldnameValidator_resolve config rule)
      with (SigmahqFieldnameCastValidator_resolve config rule).
    destruct (SigmahqFieldnameCastValidator_resolve config rule) as [[self|e]|] eqn:E;
      simpl; try constructor.
    apply validate_detections_Forall. intros d.
    rewrite <- (resolved_self_rule rule _ self E eq_refl). apply InvalidFieldname_refers.
  - apply validate_detections_Forall, (FieldDuplicateValue_refers (plain_self rule)).
  - apply validate_detections_Forall, (InvalidAllModifier_refers (plain_self rule)).
  - apply validate_detections_Forall, (FieldUser_refers (plain_self rule)).
Qed.

(** C2. Every issue any check returns refers to the rule that was
    validated, and to that rule only; in particular, on a rule without a
    level the Missing-level check returns exactly one issue, and that issue
    refers to the rule. *)
Theorem issues_refer_to_their_rule validator rule :
  Forall (fun i => rules i = [rule]) (issues_of (validate config validator rule))
  ∧ (level rule = None →
     validate config SigmahqLevelExistenceValidator rule
     = Ok [mkIssue [rule] SigmahqLevelExistenceIssue]).
Proof.
  split.
  - apply validate_refers.
  - intros Hl. simpl. unfold SigmahqLevelExistenceValidator_validate. by rewrite Hl.
Qed.

End RuleReference.

Lemma issues_refer_to_their_rule_witness :
  validate empty_config SigmahqLevelExistenceValidator (bare_rule [] [])
  = Ok [mkIssue [bare_rule [] []] SigmahqLevelExistenceIssue].
Proof.
  exact (proj2 (issues_refer_to_their_rule empty_config
                  SigmahqLevelExistenceValidator (bare_rule [] [])) eq_refl).
Defined.

(** ** Falsepositive-not-capitalized *)

Section Capital.
Context {V : Type}.
Implicit Types (rule : SigmaRule V) (fp : string).

Lemma split_head s :
  ∃ ws, Py.split " " s = up_to_first_space s :: ws.
Proof.
  induction s as [|c s [ws IH]]; simpl; [by eexists|].
  destruct (decide (c = " "%char)); [by eexists|].
  rewrite IH. by eexists.
Qed.

Lemma first_word_getitem s :
  Py.list_getitem (Py.split " " s) 0 = Ok (up_to_first_space s).
Proof. destruct (split_head s) as [ws ->]. reflexivity. Qed.

Lemma upper_char_changes c :
  Py.upper_char c ≠ c ↔ Py.is_ascii_lower c = true.
Proof.
  unfold Py.upper_char. destruct (Py.is_ascii_lower c) eqn:E; [|split; [done|discriminate]].
  split; [done|]. intros _ Heq.
  unfold Py.is_ascii_lower in E. apply andb_true_iff in E as [E1 E2].
  apply Nat.leb_le in E1, E2.
  apply (f_equal nat_of_ascii) in Heq.
  rewrite nat_ascii_embedding in Heq by lia. lia.
Qed.

Lemma upper_one_char_changes c :
  Py.upper (String c EmptyString) ≠ String c EmptyString ↔ Py.is_ascii_lower c = true.
Proof.
  rewrite <- upper_char_changes. simpl. split.
  - intros H Heq. apply H. by rewrite Heq.
  - intros H [= Heq]. by apply H.
Qed.

(** One round of the loop on a non-empty entry. *)
Lemma capital_loop_step rule c s fps acc :
  capital_loop rule (String c s :: fps) acc
  = capital_loop rule fps
      (if Py.is_ascii_lower c
       then acc ++ [Issue (ARule rule)
                      (SigmahqFalsepositivesCapitalIssue (up_to_first_space (String c s)))]
       else acc).
Proof.
  cbn [capital_loop]. unfold Py.getitem. cbn [String.get mbind result_bind].
  destruct (decide (Py.upper (String c EmptyString) ≠ String c EmptyString)) as [Hc|Hc];
    rewrite upper_one_char_changes in Hc.
  - rewrite Hc, first_word_getitem. reflexivity.
  - apply not_true_is_false in Hc. by rewrite Hc.
Qed.

Lemma capital_loop_spec rule fps acc :
  (∀ fp, fp ∈ fps → fp ≠ "") →
  capital_loop rule fps acc
  = Ok (acc ++ map (fun fp => mkIssue [rule]
                      (SigmahqFalsepositivesCapitalIssue (up_to_first_space fp)))
                 (filter (fun fp => first_char_lowercase fp = true) fps)).
Proof.
  revert acc. induction fps as [|fp fps IH]; intros acc Hne.
  - simpl. by rewrite app_nil_r.
  - destruct fp as [|c s]; [by destruct (Hne "" (list_elem_of_here _ _))|].
    rewrite capital_loop_step, IH by (intros fp' Hin; by apply Hne, list_elem_of_further).
    rewrite filter_cons. simpl first_char_lowercase.
    destruct (Py.is_ascii_lower c); simpl.
    + by rewrite <- app_assoc.
    + done.
Qed.

Lemma capital_loop_raises rule fps acc :
  "" ∈ fps → capital_loop rule fps acc = Raise IndexError.
Proof.
  revert acc. induction fps as [|fp fps IH]; intros acc Hin.
  - by apply elem_of_nil in Hin.
  - destruct fp as [|c s]; [reflexivity|].
    rewrite capital_loop_step. apply IH.
    apply elem_of_cons in Hin as [Hin|Hin]; [discriminate|done].
Qed.

(** C3, on the code. A rule with an empty-string falsepositive entry makes
    the Falsepositive-not-capitalized check raise [IndexError] (from
    [fp[0]]), whatever the other entries are: the entry is not skipped. *)
Theorem Capital_raises_on_empty_entry rule :
  "" ∈ falsepositives rule →
  SigmahqFalsepositivesCapitalValidator_validate rule = Raise IndexError.
Proof.
  intros Hin. unfold SigmahqFalsepositivesCapitalValidator_validate.
  destruct (falsepositives rule) as [|fp fps] eqn:E.
  - by apply elem_of_nil in Hin.
  - by apply capital_loop_raises.
Qed.


End Capital.

Lemma Capital_raises_on_empty_entry_witness :
  SigmahqFalsepositivesCapitalValidator_validate
    (bare_rule ["Legitimate use"; ""] []) = Raise IndexError.
Proof.
  exact (Capital_raises_on_empty_entry (bare_rule ["Legitimate use"; ""] [])
           (list_elem_of_further _ _ _ (list_elem_of_here _ _))).
Defined.

(** The two sibling checks take the same rule without raising. *)
Example siblings_accept_empty_entry :
  SigmahqFalsepositivesBannedWordValidator_validate
    (mkConfig ∅ ∅ ["none"] ["unkown"] []) (bare_rule [""] []) = Ok []
  ∧ issues_of (SigmahqFalsepositivesTypoWordValidator_validate
                 (mkConfig ∅ ∅ ["none"] ["unkown"] []) (bare_rule [""] []))
    = [mkIssue [bare_rule [""] []] (SigmahqFalsepositivesTypoWordIssue "")].
Proof. split; vm_compute; reflexivity. Qed.


(** C4, on the code. The first character of the entry "3rd party tools"
    is not uppercase, and the entry does not start with a capital letter,
    as the description of the issue and the docstring of the check put it;
    the check returns no issue for it. *)
Lemma Capital_digit_entry_not_reported :
  first_char_not_uppercase "3rd party tools" = true
  ∧ SigmahqFalsepositivesCapitalValidator_validate (bare_rule ["3rd party tools"] [])
    = Ok [].
Proof. split; vm_compute; reflexivity. Qed.

(** The same on an entry that starts with a space. *)
Example Capital_space_entry_not_reported :
  first_char_not_uppercase " leading space" = true
  ∧ issue_description (SigmahqFalsepositivesCapitalIssue "")
    = "Rule contains a falsepositive entry that doesn't start with a capital letter"
  ∧ SigmahqFalsepositivesCapitalValidator_validate (bare_rule [" leading space"] [])
    = Ok [].
Proof. split_and!; vm_compute; reflexivity. Qed.

(** ** Duplicate-value *)

Section FirstDuplicate.
Context {V K : Type} `{EqDecision K}.
Variable key : V -> K.

Lemma first_dup_None vs seen :
  first_dup key vs seen = None
  ↔ (∀ v, v ∈ vs → key v ∉ seen) ∧ NoDup (key <$> vs).
Proof.
  revert seen. induction vs as [|v vs IH]; intros seen; simpl.
  - split; [|done]. intros _. split; [|constructor].
    intros v Hv. by apply elem_of_nil in Hv.
  - destruct (decide (key v ∈ seen)) as [Hin|Hin].
    + split; [done|]. intros [Hall _].
      destruct (Hall v (list_elem_of_here _ _) Hin).
    + rewrite IH, NoDup_cons. split.
      * intros [Hall Hnd]. split_and!; [|  |done].
        -- intros w [->|Hw]%elem_of_cons; [done|].
           intros Hs. apply (Hall w Hw). apply elem_of_app. by left.
        -- intros (w & Hk & Hw)%list_elem_of_fmap.
           apply (Hall w Hw). apply elem_of_app. right. rewrite Hk.
           apply list_elem_of_here.
      * intros [Hall [Hnv Hnd]]. split; [|done].
        intros w Hw [Hs|Hs%list_elem_of_singleton]%elem_of_app.
        -- by apply (Hall w (list_elem_of_further _ _ _ Hw)).
        -- apply Hnv. apply list_elem_of_fmap. by exists w.
Qed.

Lemma first_dup_Some vs seen v :
  first_dup key vs seen = Some v →
  ∃ j, vs !! j = Some v
       ∧ first_dup key (take j vs) seen = None
       ∧ key v ∈ seen ++ (key <$> take j vs).
Proof.
  revert seen. induction vs as [|v0 vs IH]; intros seen; simpl; [done|].
  destruct (decide (key v0 ∈ seen)) as [Hin|Hin].
  - intros [= <-]. exists 0. simpl. split_and!; [done|done|].
    by rewrite app_nil_r.
  - intros (j & Hj & Hnone & Hk)%IH. exists (S j). simpl.
    rewrite decide_False by done. split_and!; [done|done|].
    by rewrite <- app_assoc in Hk.
Qed.

Lemma NoDup_fmap_through {N} (f : K → N) `{!Inj (=) (=) f} (l : list V) :
  NoDup (key <$> l) → NoDup ((fun v => f (key v)) <$> l).
Proof.
  intros Hnd. change (NoDup ((f ∘ key) <$> l)).
  rewrite list_fmap_compose. by apply (NoDup_fmap_2 f).
Qed.

Lemma elem_of_fmap_through {N} (f : K → N) (l : list V) v :
  key v ∈ key <$> l → f (key v) ∈ (fun v => f (key v)) <$> l.
Proof.
  intros Hin. change (f (key v) ∈ (f ∘ key) <$> l).
  rewrite list_fmap_compose. by apply list_elem_of_fmap_2.
Qed.

End FirstDuplicate.

Section DuplicateValue.
Context {V : Type} `{!SigmaType V}.
Implicit Types (self : Self V) (d : SigmaDetectionItem V).

Lemma duplicate_loop_sensitive_first_dup self d vs seen :
  duplicate_loop_sensitive self d vs seen
  = match first_dup id vs seen with
    | Some v => [duplicate_issue self d v]
    | None => []
    end.
Proof.
  revert seen. induction vs as [|v vs IH]; intros seen; simpl; [done|].
  destruct (decide (v ∈ seen)); [done | apply IH].
Qed.

Lemma duplicate_loop_insensitive_first_dup self d vs seen :
  duplicate_loop_insensitive self d vs seen
  = match first_dup (fun v => Py.lower (str v)) vs seen with
    | Some v => [duplicate_issue self d v]
    | None => []
    end.
Proof.
  revert seen. induction vs as [|v vs IH]; intros seen; simpl; [done|].
  destruct (decide (Py.lower (str v) ∈ seen)); [done | apply IH].
Qed.

Lemma case_sensitive_modifiers_spec d :
  case_sensitive_modifiers d = true
  ↔ ∃ m, m ∈ modifiers d ∧ m ∈ case_sensitive_classes.
Proof.
  unfold case_sensitive_modifiers, case_sensitive_classes.
  rewrite !orb_true_iff, !bool_decide_eq_true. split.
  - intros H.
    repeat (destruct H as [H|H]; [|eexists; split; [exact H|]; set_solver]).
    eexists; split; [exact H|]; set_solver.
  - intros (m & Hm & Hc).
    repeat (apply elem_of_cons in Hc as [->|Hc]; [tauto|]).
    by apply elem_of_nil in Hc.
Qed.

(** The outcome of the check in terms of [normalized]. *)
Lemma DuplicateValue_outcome self d :
  SigmahqFieldDuplicateValueValidator_validate_detection_item self d = []
  ∧ NoDup (normalized d <$> value d)
  ∨ ∃ j v,
      SigmahqFieldDuplicateValueValidator_validate_detection_item self d
      = [duplicate_issue self d v]
      ∧ value d !! j = Some v
      ∧ NoDup (normalized d <$> take j (value d))
      ∧ normalized d v ∈ normalized d <$> take j (value d).
Proof.
  unfold SigmahqFieldDuplicateValueValidator_validate_detection_item, normalized.
  destruct (case_sensitive_modifiers d).
  - rewrite duplicate_loop_sensitive_first_dup.
    destruct (first_dup id (value d) []) as [v|] eqn:E.
    + right. apply first_dup_Some in E as (j & Hj & Hnone & Hk).
      apply first_dup_None in Hnone as [_ Hnd]. simpl in Hk.
      exists j, v. split_and!; [done|done| |].
      * by apply (NoDup_fmap_through id inl).
      * by apply (elem_of_fmap_through id inl).
    + left. apply first_dup_None in E as [_ Hnd]. split; [done|].
      by apply (NoDup_fmap_through id inl).
  - rewrite duplicate_loop_insensitive_first_dup.
    destruct (first_dup _ (value d) []) as [v|] eqn:E.
    + right. apply first_dup_Some in E as (j & Hj & Hnone & Hk).
      apply first_dup_None in Hnone as [_ Hnd]. simpl in Hk.
      exists j, v. split_and!; [done|done| |].
      * by apply (NoDup_fmap_through (fun v => Py.lower (str v)) inr).
      * by apply (elem_of_fmap_through (fun v => Py.lower (str v)) inr).
    + left. apply first_dup_None in E as [_ Hnd]. split; [done|].
      by apply (NoDup_fmap_through (fun v => Py.lower (str v)) inr).
Qed.

Lemma prefix_duplicate_not_NoDup {N} (l : list N) j x :
  l !! j = Some x → x ∈ take j l → ¬ NoDup l.
Proof.
  intros Hj Hin Hnd.
  rewrite <- (take_drop_middle l j x Hj) in Hnd.
  apply NoDup_app in Hnd as (_ & Hdisj & _).
  apply (Hdisj x Hin), list_elem_of_here.
Qed.

(** C5. For every detection item the Duplicate-value check fires exactly
    when two values of the item are equal after normalization, that is when
    the list of normalized values has a repetition; a value is normalized to
    its lowercased rendering, unless one of [SigmaBase64Modifier],
    [SigmaBase64OffsetModifier], [SigmaRegularExpressionModifier], the
    regular expression flag modifiers or [SigmaCaseSensitiveModifier] is
    present, when the value itself is compared.  The check returns at most
    one issue, and that issue is for the first value, in the order of the
    list, that repeats an earlier one: no value before it does, and the
    issue carries the field and the rendering of that value. *)
Theorem DuplicateValue_first_duplicate self d :
  ((∃ m, m ∈ modifiers d ∧ m ∈ case_sensitive_classes) →
   ∀ v, normalized d v = inl v)
  ∧ (¬ (∃ m, m ∈ modifiers d ∧ m ∈ case_sensitive_classes) →
     ∀ v, normalized d v = inr (Py.lower (str v)))
  ∧ (fires (SigmahqFieldDuplicateValueValidator_validate_detection_item self d)
     ↔ ¬ NoDup (normalized d <$> value d))
  ∧ length (SigmahqFieldDuplicateValueValidator_validate_detection_item self d) ≤ 1
  ∧ (∀ issue,
       issue ∈ SigmahqFieldDuplicateValueValidator_validate_detection_item self d →
       ∃ j v, value d !! j = Some v
              ∧ NoDup (normalized d <$> take j (value d))
              ∧ normalized d v ∈ normalized d <$> take j (value d)
              ∧ issue = mkIssue [self_rule self]
                          (SigmahqFieldDuplicateValueIssue (field d) (str v))
              ∧ issue_severity (issue_class issue) = HIGH).
Proof.
  unfold fires. split; [|split].
  { intros Hm%case_sensitive_modifiers_spec v. unfold normalized. by rewrite Hm. }
  { rewrite <- case_sensitive_modifiers_spec. intros Hm%not_true_is_false v.
    unfold normalized. by rewrite Hm. }
  destruct (DuplicateValue_outcome self d) as [[-> Hnd]|(j & v & -> & Hj & Hnd & Hin)].
  - split_and!.
    + split; [done|]. intros Hn. by destruct Hn.
    + simpl. lia.
    + intros issue Hi. by apply elem_of_nil in Hi.
  - split_and!.
    + split; [|done]. intros _.
      apply (prefix_duplicate_not_NoDup _ j (normalized d v)).
      * by rewrite list_lookup_fmap, Hj.
      * by rewrite <- fmap_take.
    + simpl. lia.
    + intros issue ->%list_elem_of_singleton. by exists j, v.
Qed.

End DuplicateValue.

(** [Foo, foo] without a modifier, with the case-sensitive modifier, and
    [Foo, Foo] with it. *)
Example DuplicateValue_case_examples :
  SigmahqFieldDuplicateValueValidator_validate_detection_item
    (plain_self (bare_rule [] []))
    (mkItem (Some "Image") [] [mkSigmaString "Foo"; mkSigmaString "foo"])
  = [mkIssue [bare_rule [] []] (SigmahqFieldDuplicateValueIssue (Some "Image") "foo")]
  ∧ SigmahqFieldDuplicateValueValidator_validate_detection_item
      (plain_self (bare_rule [] []))
      (mkItem (Some "Image") [SigmaCaseSensitiveModifier]
         [mkSigmaString "Foo"; mkSigmaString "foo"])
    = []
  ∧ SigmahqFieldDuplicateValueValidator_validate_detection_item
      (plain_self (bare_rule [] []))
      (mkItem (Some "Image") [SigmaCaseSensitiveModifier]
         [mkSigmaString "Foo"; mkSigmaString "Foo"])
    = [mkIssue [bare_rule [] []] (SigmahqFieldDuplicateValueIssue (Some "Image") "Foo")].
Proof. split_and!; vm_compute; reflexivity. Qed.

(** The theorem at [Foo, bar, foo, BAR]: one issue, for the third value. *)
Lemma DuplicateValue_first_duplicate_witness :
  length (SigmahqFieldDuplicateValueValidator_validate_detection_item
            (plain_self (bare_rule [] []))
            (mkItem (Some "Image") []
               [mkSigmaString "Foo"; mkSigmaString "bar";
                mkSigmaString "foo"; mkSigmaString "BAR"])) ≤ 1.
Proof.
  exact (proj1 (proj2 (proj2 (proj2 (DuplicateValue_first_duplicate
                         (plain_self (bare_rule [] []))
                         (mkItem (Some "Image") []
                            [mkSigmaString "Foo"; mkSigmaString "bar";
                             mkSigmaString "foo"; mkSigmaString "BAR"])))))).
Defined.

(** ** Falsepositive-typo-word and empty tokens *)

Section EmptyTokens.

(** An empty token after the first one survives any text put in front. *)
Lemma split_empty_tail_prepend a s :
  (∃ w ws, Py.split " " s = w :: ws ∧ "" ∈ ws) →
  ∃ w ws, Py.split " " (a +:+ s) = w :: ws ∧ "" ∈ ws.
Proof.
  intros Hs. induction a as [|c a (w & ws & IH & Hin)]; simpl; [done|].
  rewrite IH. destruct (decide (c = " "%char)).
  - eexists _, _. split; [done|]. by apply list_elem_of_further.
  - by eexists _, _.
Qed.

Lemma split_double_space a b : "" ∈ Py.split " " (a +:+ "  " +:+ b).
Proof.
  destruct (split_empty_tail_prepend a ("  " +:+ b)) as (w & ws & -> & Hin).
  - simpl. eexists _, _. split; [done|]. apply list_elem_of_here.
  - by apply list_elem_of_further.
Qed.

Lemma split_leading_space b : "" ∈ Py.split " " (" " +:+ b).
Proof. simpl. apply list_elem_of_here. Qed.

Lemma split_trailing_space a : "" ∈ Py.split " " (a +:+ " ").
Proof.
  destruct (split_empty_tail_prepend a " ") as (w & ws & -> & Hin).
  - simpl. eexists _, _. split; [done|]. apply list_elem_of_here.
  - by apply list_elem_of_further.
Qed.

Lemma contains_empty s : Py.contains "" s = true.
Proof. by destruct s. Qed.

End EmptyTokens.

Section TypoWord.
Context {V : Type}.
Variable config : ConfigHQ.
Implicit Types (rule : SigmaRule V) (fp : string).

Lemma typo_word_loop_spec rule fp words acc :
  typo_word_loop rule fp words acc = acc ++ typo_issues rule words fp.
Proof.
  unfold typo_issues. revert acc.
  induction words as [|typo words IH]; intros acc; simpl.
  - by rewrite app_nil_r.
  - rewrite filter_cons.
    destruct (Py.contains (Py.strip (Py.lower fp)) typo) eqn:E.
    + rewrite decide_True by done. rewrite IH. simpl. by rewrite <- app_assoc.
    + rewrite decide_False by done. apply IH.
Qed.

Lemma typo_token_loop_spec rule tokens acc :
  typo_token_loop config rule tokens acc
  = acc ++ (tokens ≫= typo_issues rule (sigmahq_fp_typo_word config)).
Proof.
  revert acc. induction tokens as [|fp tokens IH]; intros acc; simpl.
  - by rewrite app_nil_r.
  - by rewrite IH, typo_word_loop_spec, <- app_assoc.
Qed.

Lemma typo_entry_loop_spec rule entries acc :
  typo_entry_loop config rule entries acc
  = acc ++ (fp_tokens entries ≫= typo_issues rule (sigmahq_fp_typo_word config)).
Proof.
  unfold fp_tokens. revert acc. induction entries as [|e entries IH]; intros acc; simpl.
  - by rewrite app_nil_r.
  - by rewrite IH, typo_token_loop_spec, bind_app, <- app_assoc.
Qed.

Lemma TypoWord_validate_spec rule :
  SigmahqFalsepositivesTypoWordValidator_validate config rule
  = Ok (fp_tokens (falsepositives rule)
          ≫= typo_issues rule (sigmahq_fp_typo_word config)).
Proof.
  unfold SigmahqFalsepositivesTypoWordValidator_validate.
  destruct (falsepositives rule) as [|e entries]; [done|].
  by rewrite typo_entry_loop_spec.
Qed.

(** The empty token matches every typo word. *)
Lemma typo_issues_empty_token rule words :
  typo_issues rule words ""
  = replicate (length words) (mkIssue [rule] (SigmahqFalsepositivesTypoWordIssue "")).
Proof.
  unfold typo_issues. change (Py.strip (Py.lower "")) with "".
  induction words as [|typo words IH]; [done|].
  rewrite filter_cons, decide_True by apply contains_empty.
  rewrite fmap_cons, IH. done.
Qed.

Lemma typo_issues_other_token rule words fp :
  fp ≠ "" → filter carries_empty_token (typo_issues rule words fp) = [].
Proof.
  intros Hne. unfold typo_issues.
  induction (filter _ words) as [|typo l IH]; [done|].
  rewrite fmap_cons, filter_cons, decide_False; [done|].
  unfold carries_empty_token, carried_word. simpl. intros [= Heq]. by apply Hne.
Qed.

Lemma filter_replicate_all {A} (P : A → Prop) `{!∀ x, Decision (P x)} n x :
  P x → filter P (replicate n x) = replicate n x.
Proof.
  intros HP. induction n as [|n IH]; [done|].
  simpl. by rewrite filter_cons, decide_True, IH.
Qed.

Lemma empty_token_issues rule tokens :
  filter carries_empty_token
    (tokens ≫= typo_issues rule (sigmahq_fp_typo_word config))
  = replicate (length (filter (fun t => t = "") tokens)
               * length (sigmahq_fp_typo_word config))
      (mkIssue [rule] (SigmahqFalsepositivesTypoWordIssue "")).
Proof.
  induction tokens as [|t tokens IH]; [done|].
  rewrite bind_cons, filter_app, IH, (filter_cons _ t).
  destruct (decide (t = "")) as [->|Hne].
  - rewrite typo_issues_empty_token, filter_replicate_all by done.
    simpl length. by rewrite <- replicate_add.
  - by rewrite typo_issues_other_token.
Qed.

(** C10. When a falsepositive entry of a rule has two consecutive spaces,
    a leading space or a trailing space, splitting it on spaces gives an
    empty token.  For each empty token of the rule the Falsepositive-typo-word
    check returns one issue carrying the empty token for every word of the
    typo-word catalog: the issues that carry the empty token are as many as
    the empty tokens times the words of the catalog, hence at least one for
    every word of the catalog. *)
Theorem TypoWord_empty_token rule e :
  e ∈ falsepositives rule →
  (∃ a b, e = a +:+ "  " +:+ b) ∨ (∃ b, e = " " +:+ b) ∨ (∃ a, e = a +:+ " ") →
  "" ∈ Py.split " " e
  ∧ 1 ≤ empty_tokens (falsepositives rule)
  ∧ ∃ issues,
      SigmahqFalsepositivesTypoWordValidator_validate config rule = Ok issues
      ∧ filter carries_empty_token issues
        = replicate (empty_tokens (falsepositives rule)
                     * length (sigmahq_fp_typo_word config))
            (mkIssue [rule] (SigmahqFalsepositivesTypoWordIssue ""))
      ∧ length (sigmahq_fp_typo_word config)
        ≤ length (filter carries_empty_token issues).
Proof.
  intros He Hshape.
  assert ("" ∈ Py.split " " e) as Hempty.
  { destruct Hshape as [(a & b & ->)|[(b & ->)|(a & ->)]];
      [apply split_double_space | apply split_leading_space | apply split_trailing_space]. }
  assert (1 ≤ empty_tokens (falsepositives rule)) as Hcount.
  { unfold empty_tokens, fp_tokens.
    assert ("" ∈ filter (fun t => t = "") (falsepositives rule ≫= Py.split " ")) as Hin.
    { apply list_elem_of_filter. split; [done|].
      apply list_elem_of_bind. by exists e. }
    destruct (filter _ _); [by apply elem_of_nil in Hin | simpl; lia]. }
  split_and!; [done|done|].
  eexists. split; [apply TypoWord_validate_spec|].
  rewrite empty_token_issues. fold (empty_tokens (falsepositives rule)).
  split; [done|]. rewrite length_replicate. nia.
Qed.

End TypoWord.

Lemma TypoWord_empty_token_witness :
  ∃ issues,
    SigmahqFalsepositivesTypoWordValidator_validate
      (mkConfig ∅ ∅ [] ["unkown"; "ligitimate"] [])
      (bare_rule ["Legitimate  use"] []) = Ok issues
    ∧ filter carries_empty_token issues
      = replicate 2 (mkIssue [bare_rule ["Legitimate  use"] []]
                       (SigmahqFalsepositivesTypoWordIssue "")).
Proof.
  destruct (TypoWord_empty_token (mkConfig ∅ ∅ [] ["unkown"; "ligitimate"] [])
              (bare_rule ["Legitimate  use"] []) "Legitimate  use"
              (list_elem_of_here _ _)
              (or_introl (ex_intro _ "Legitimate" (ex_intro _ "use" eq_refl))))
    as (_ & _ & issues & Hv & Hf & _).
  exists issues. split; [exact Hv | exact Hf].
Defined.

(** ** The full check set on a rule without metadata *)

Section EndToEnd.
Context {V : Type} `{!SigmaType V}.
Variable config : ConfigHQ.
Implicit Types (rule : SigmaRule V) (d : SigmaDetectionItem V).

Lemma SpaceFieldName_User_Name self d :
  field d = Some "User Name" →
  SigmahqSpaceFieldNameValidator_validate_detection_item self d
  = [mkIssue [self_rule self] (SigmahqSpaceFieldNameIssue "User Name")].
Proof.
  intros Hf. unfold SigmahqSpaceFieldNameValidator_validate_detection_item.
  by rewrite Hf.
Qed.

(** C7, as the code has it. On a rule without status, date, description
    and level, with no falsepositive entry and with a single detection item
    on the field [User Name], the full check set returns exactly five
    issues (Missing-status, Missing-date, Missing-description,
    Missing-level and Space-in-field-name; Description-too-short is not
    among them), provided nothing else of the rule triggers a check: the
    logsource matches no key of the catalog, the rule has no custom
    attribute, and the modifiers and values of the item trigger none of the
    Duplicate-value, Invalid-all-modifier and User-field-localization
    checks. *)
Theorem bare_rule_five_issues rule name d :
  status rule = None → date rule = None → description rule = None →
  level rule = None → falsepositives rule = [] →
  single_item rule name d → field d = Some "User Name" →
  (∀ ls fields, sigmahq_logsource_cast config !! ls = Some fields →
                triple ls ≠ triple (logsource rule)) →
  custom_attributes rule = [] →
  SigmahqFieldDuplicateValueValidator_validate_detection_item (plain_self rule) d = [] →
  SigmahqInvalidAllModifierValidator_validate_detection_item' (plain_self rule) d = [] →
  SigmahqFieldUserValidator_validate_detection_item (plain_self rule) d = [] →
  validate_rule config all_validators rule
  = Ok [ mkIssue [rule] SigmahqStatusExistenceIssue;
         mkIssue [rule] SigmahqDateExistenceIssue;
         mkIssue [rule] SigmahqDescriptionExistenceIssue;
         mkIssue [rule] SigmahqLevelExistenceIssue;
         mkIssue [rule] (SigmahqSpaceFieldNameIssue "User Name") ].
Proof.
  intros Hstatus Hdate Hdescr Hlevel Hfps Hitem Hfield Hls Hattrs Hdup Hall Huser.
  destruct (unknown_logsource_validate config rule Hls) as [Hcast Hinvalid].
  unfold all_validators.
  cbn [validate_rule validate].
  rewrite Hcast, Hinvalid.
  unfold SigmahqStatusExistenceValidator_validate, SigmahqStatusValidator_validate,
    SigmahqDateExistenceValidator_validate, SigmahqDescriptionExistenceValidator_validate,
    SigmahqDescriptionLengthValidator_validate, SigmahqLevelExistenceValidator_validate,
    SigmahqFalsepositivesCapitalValidator_validate,
    SigmahqFalsepositivesBannedWordValidator_validate,
    SigmahqFalsepositivesTypoWordValidator_validate,
    SigmahqLinkInDescriptionValidator_validate, SigmahqUnknownFieldValidator_validate,
    SigmahqSpaceFieldNameValidator_validate, SigmahqFieldDuplicateValueValidator_validate,
    SigmahqInvalidAllModifierValidator_validate', SigmahqFieldUserValidator_validate.
  rewrite !(validate_detections_single _ rule name d Hitem).
  rewrite Hstatus, Hdate, Hdescr, Hlevel, Hfps, Hattrs, Hdup, Hall, Huser.
  rewrite (SpaceFieldName_User_Name _ d Hfield).
  reflexivity.
Qed.

End EndToEnd.

Lemma bare_rule_five_issues_witness :
  validate_rule windows_catalog all_validators (user_name_rule linux_process_creation)
  = Ok [ mkIssue [user_name_rule linux_process_creation] SigmahqStatusExistenceIssue;
         mkIssue [user_name_rule linux_process_creation] SigmahqDateExistenceIssue;
         mkIssue [user_name_rule linux_process_creation] SigmahqDescriptionExistenceIssue;
         mkIssue [user_name_rule linux_process_creation] SigmahqLevelExistenceIssue;
         mkIssue [user_name_rule linux_process_creation]
           (SigmahqSpaceFieldNameIssue "User Name") ].
Proof.
  apply (bare_rule_five_issues windows_catalog (user_name_rule linux_process_creation)
           "selection" user_name_item); try reflexivity.
  intros ls fields Hls. simpl in Hls.
  apply lookup_singleton_Some in Hls as [<- _]. discriminate.
Defined.

(** C7, as the specification states it, fails when the catalog knows the
    logsource of the rule: [User Name] is then no field of the logsource
    and Invalid-field-name fires as well, so the issues are six. *)
Lemma bare_rule_six_issues_on_known_logsource :
  validate_rule windows_catalog all_validators (user_name_rule windows_process_creation)
  = Ok [ mkIssue [user_name_rule windows_process_creation] SigmahqStatusExistenceIssue;
         mkIssue [user_name_rule windows_process_creation] SigmahqDateExistenceIssue;
         mkIssue [user_name_rule windows_process_creation] SigmahqDescriptionExistenceIssue;
         mkIssue [user_name_rule windows_process_creation] SigmahqLevelExistenceIssue;
         mkIssue [user_name_rule windows_process_creation]
           (SigmahqSpaceFieldNameIssue "User Name");
         mkIssue [user_name_rule windows_process_creation]
           (SigmahqInvalidFieldnameIssue "User Name") ].
Proof. vm_compute. reflexivity. Qed.

(** * Further properties of the validators *)

(** ** Field names *)

Section FieldNames.
Context {V : Type} `{!SigmaType V}.
Implicit Types (self : Self V) (d : SigmaDetectionItem V).

(** X1. Space-in-field-name returns one issue, carrying the field, when the
    field holds a space, and nothing otherwise (no field, or a field
    without a space). *)
Theorem SpaceFieldName_outcome self d :
  (∃ f, field d = Some f ∧ substring_of " " f
        ∧ SigmahqSpaceFieldNameValidator_validate_detection_item self d
          = [mkIssue [self_rule self] (SigmahqSpaceFieldNameIssue f)])
  ∨ ((∀ f, field d = Some f → ¬ substring_of " " f)
     ∧ SigmahqSpaceFieldNameValidator_validate_detection_item self d = []).
Proof.
  unfold SigmahqSpaceFieldNameValidator_validate_detection_item, substring_of.
  destruct (field d) as [f|]; [|right; split; [done|done]].
  destruct (Py.contains " " f) eqn:E.
  - left. exists f. apply contains_spec in E as (a & b & Hab).
    split_and!; [done|by exists a, b|].
    rewrite bool_decide_true; [done|]. intros ->. by destruct a.
  - right. split; [|by rewrite andb_false_r].
    intros f' [= <-] Hsub. apply contains_spec in Hsub. congruence.
Qed.

(** X2. On any detection item at most one of Field-cast-mismatch and
    Invalid-field-name fires.  An item without a field passes both; a
    field whose lowercase form is not in [self.unifields] is an invalid
    field name; one whose lowercase form is there but which is itself not
    in [self.fields] is a cast mismatch; a field in both passes both. *)
Theorem catalog_checks_trichotomy self d :
  (field d = None
   ∧ SigmahqFieldnameCastValidator_validate_detection_item self d = []
   ∧ SigmahqInvalidFieldnameValidator_validate_detection_item self d = [])
  ∨ (∃ f, field d = Some f ∧ (Py.lower f ∉ self_unifields self)
     ∧ SigmahqFieldnameCastValidator_validate_detection_item self d = []
     ∧ SigmahqInvalidFieldnameValidator_validate_detection_item self d
       = [mkIssue [self_rule self] (SigmahqInvalidFieldnameIssue f)])
  ∨ (∃ f, field d = Some f ∧ Py.lower f ∈ self_unifields self ∧ (f ∉ self_fields self)
     ∧ SigmahqFieldnameCastValidator_validate_detection_item self d
       = [mkIssue [self_rule self] (SigmahqFieldnameCastIssue f)]
     ∧ SigmahqInvalidFieldnameValidator_validate_detection_item self d = [])
  ∨ (∃ f, field d = Some f ∧ Py.lower f ∈ self_unifields self ∧ f ∈ self_fields self
     ∧ SigmahqFieldnameCastValidator_validate_detection_item self d = []
     ∧ SigmahqInvalidFieldnameValidator_validate_detection_item self d = []).
Proof.
  unfold SigmahqFieldnameCastValidator_validate_detection_item,
    SigmahqInvalidFieldnameValidator_validate_detection_item.
  destruct (field d) as [f|]; [|by left].
  right.
  destruct (bool_decide_reflect (Py.lower f ∈ self_unifields self)) as [Hu|Hu];
    destruct (bool_decide_reflect (f ∈ self_fields self)) as [Hf|Hf]; simpl.
  - right. right. by exists f.
  - right. left. by exists f.
  - left. by exists f.
  - left. by exists f.
Qed.

(** X3. When the lowercase table holds the lowercase form of every field of
    the exact table, a field of the exact table passes both catalog
    checks. *)
Theorem catalog_field_accepted self d f :
  (∀ g, g ∈ self_fields self → Py.lower g ∈ self_unifields self) →
  field d = Some f → f ∈ self_fields self →
  SigmahqFieldnameCastValidator_validate_detection_item self d = []
  ∧ SigmahqInvalidFieldnameValidator_validate_detection_item self d = [].
Proof.
  intros Hcons Hfield Hf.
  unfold SigmahqFieldnameCastValidator_validate_detection_item,
    SigmahqInvalidFieldnameValidator_validate_detection_item.
  rewrite Hfield.
  rewrite (bool_decide_true (Py.lower f ∈ _)) by (by apply Hcons).
  by rewrite (bool_decide_true (f ∈ _)).
Qed.

End FieldNames.

Lemma catalog_field_accepted_witness :
  SigmahqFieldnameCastValidator_validate_detection_item
    (image_self (bare_rule [] [])) (mkItem (Some "Image") [] [mkSigmaString "x"]) = []
  ∧ SigmahqInvalidFieldnameValidator_validate_detection_item
      (image_self (bare_rule [] [])) (mkItem (Some "Image") [] [mkSigmaString "x"]) = [].
Proof.
  apply (catalog_field_accepted (image_self (bare_rule [] []))
           (mkItem (Some "Image") [] [mkSigmaString "x"]) "Image").
  - intros g Hg. simpl in Hg.
    repeat (apply elem_of_cons in Hg as [->|Hg]; [vm_compute; set_solver|]).
    by apply elem_of_nil in Hg.
  - reflexivity.
  - simpl. apply list_elem_of_here.
Defined.

(** A field written in another case than the catalog has it. *)
Example cast_mismatch_example :
  SigmahqFieldnameCastValidator_validate_detection_item
    (image_self (bare_rule [] [])) (mkItem (Some "image") [] [mkSigmaString "x"])
  = [mkIssue [bare_rule [] []] (SigmahqFieldnameCastIssue "image")].
Proof. vm_compute. reflexivity. Qed.

(** ** Resolution of the logsource *)

Section Resolution.
Context {V : Type} `{!SigmaType V}.
Variable config : ConfigHQ.
Implicit Types (rule : SigmaRule V).

(** X4. The two catalog checks raise [KeyError] exactly when the logsource of
    the rule is a key of [sigmahq_logsource_cast] and no key of
    [sigmahq_logsource_unicast], whatever the detection items of the rule;
    in every other case they return a list of issues. *)
Theorem catalog_checks_KeyError rule :
  (is_Some (sigmahq_logsource_cast config !! logsource rule)
   ∧ sigmahq_logsource_unicast config !! logsource rule = None
   ∧ SigmahqFieldnameCastValidator_validate config rule = Raise KeyError
   ∧ SigmahqInvalidFieldnameValidator_validate config rule = Raise KeyError)
  ∨ (¬ (is_Some (sigmahq_logsource_cast config !! logsource rule)
        ∧ sigmahq_logsource_unicast config !! logsource rule = None)
     ∧ ∃ cast_issues invalid_issues,
         SigmahqFieldnameCastValidator_validate config rule = Ok cast_issues
         ∧ SigmahqInvalidFieldnameValidator_validate config rule = Ok invalid_issues).
Proof.
  unfold SigmahqFieldnameCastValidator_validate, SigmahqInvalidFieldnameValidator_validate,
    SigmahqFieldnameCastValidator_resolve, SigmahqInvalidFieldnameValidator_resolve,
    Py.dict_getitem.
  destruct (sigmahq_logsource_cast config !! logsource rule) as [fields|] eqn:Ec.
  - rewrite decide_True by (by eexists).
    destruct (sigmahq_logsource_unicast config !! logsource rule) as [unifields|] eqn:Eu;
      simpl.
    + right. split; [by intros [_ ?]|]. by eexists _, _.
    + left. split_and!; by eauto.
  - rewrite decide_False by (by intros [? ?]).
    right. split; [by intros [[? ?] _]|]. by eexists _, _.
Qed.

End Resolution.

Example broken_catalog_raises :
  SigmahqInvalidFieldnameValidator_validate broken_catalog (bare_rule [] [])
  = Raise KeyError.
Proof. vm_compute. reflexivity. Qed.

(** ** Values of a detection item *)

Section Values.
Context {V : Type} `{!SigmaType V}.
Implicit Types (self : Self V) (d : SigmaDetectionItem V).

(** X5. User-field-localization returns one issue, carrying the field and the
    rendering of the value, exactly when the item has a field whose
    lowercase form holds "user", a single value, and the rendering of that
    value holds "AUTORI" or "AUTHORI" in uppercase; an item without a
    field, or with no value or several values, is never reported. *)
Theorem FieldUser_outcome self d :
  (∃ f v, localized_user d f v
          ∧ SigmahqFieldUserValidator_validate_detection_item self d
            = [mkIssue [self_rule self] (SigmahqFieldUserIssue f (str v))])
  ∨ ((∀ f v, ¬ localized_user d f v)
     ∧ SigmahqFieldUserValidator_validate_detection_item self d = []).
Proof.
  unfold SigmahqFieldUserValidator_validate_detection_item, localized_user, substring_of.
  destruct (field d) as [f|]; [|right; split; [by intros f v [? _]|done]].
  destruct (value d) as [|v [|v' vs]];
    [right; split; [by intros ? ? (_ & ? & _)|done] | |
     right; split; [by intros ? ? (_ & ? & _)|done]].
  destruct (Py.contains "user" (Py.lower f)) eqn:Eu.
  - assert (f ≠ "") as Hne.
    { intros ->. discriminate. }
    rewrite (bool_decide_true _ Hne). simpl.
    destruct (Py.contains "AUTORI" (str v)) eqn:E1;
      [|destruct (Py.contains "AUTHORI" (str v)) eqn:E2]; simpl.
    + left. exists f, v. split; [|done]. split_and!; try done.
      * by apply contains_spec.
      * left. by apply contains_spec.
    + left. exists f, v. split; [|done]. split_and!; try done.
      * by apply contains_spec.
      * right. by apply contains_spec.
    + right. split; [|done]. intros f' v' (_ & [= <-] & _ & [H|H]);
        apply contains_spec in H; congruence.
  - right. split; [|by rewrite andb_false_r].
    intros f' v' ([= <-] & _ & H & _). apply contains_spec in H. congruence.
Qed.

Lemma DuplicateValue_fires_NoDup self d :
  fires (SigmahqFieldDuplicateValueValidator_validate_detection_item self d)
  ↔ ¬ NoDup (normalized d <$> value d).
Proof.
  unfold fires.
  destruct (DuplicateValue_outcome self d) as [[-> Hnd]|(j & v & -> & Hj & Hnd & Hin)].
  - split; [done|]. intros Hn. by destruct Hn.
  - split; [|done]. intros _.
    apply (prefix_duplicate_not_NoDup _ j (normalized d v)).
    + by rewrite list_lookup_fmap, Hj.
    + by rewrite <- fmap_take.
Qed.

(** X6. Dropping the case-sensitive modifiers of an item never silences
    Duplicate-value: when the check fires on an item, it also fires on an
    item with the same values and none of the case-sensitive modifier
    classes. *)
Theorem DuplicateValue_insensitive_fires self d d' :
  value d' = value d →
  ¬ (∃ m, m ∈ modifiers d' ∧ m ∈ case_sensitive_classes) →
  fires (SigmahqFieldDuplicateValueValidator_validate_detection_item self d) →
  fires (SigmahqFieldDuplicateValueValidator_validate_detection_item self d').
Proof.
  intros Hv Hm. rewrite <- case_sensitive_modifiers_spec in Hm.
  apply not_true_is_false in Hm.
  rewrite !DuplicateValue_fires_NoDup, Hv. intros Hd Hd'. apply Hd.
  unfold normalized in *. rewrite Hm in Hd'.
  destruct (case_sensitive_modifiers d); [|done].
  apply (NoDup_fmap_2 inl).
  by apply (NoDup_fmap_1 (fun v => inr (Py.lower (str v)))) in Hd'.
Qed.

(** X7. Invalid-all-modifier and Duplicate-value never both report an item:
    the first needs fewer than two values, the second at least two. *)
Theorem InvalidAllModifier_excludes_duplicate self d :
  fires (SigmahqInvalidAllModifierValidator_validate_detection_item self d) →
  SigmahqFieldDuplicateValueValidator_validate_detection_item self d = [].
Proof.
  unfold fires.
  destruct (InvalidAllModifier_cases self d) as [(_ & _ & Hl)|[-> _]]; [|done].
  intros _. unfold SigmahqFieldDuplicateValueValidator_validate_detection_item.
  destruct (value d) as [|v [|v' vs]]; [| |simpl in Hl; lia];
    destruct (case_sensitive_modifiers d); simpl; done.
Qed.

End Values.

Lemma DuplicateValue_insensitive_fires_witness :
  SigmahqFieldDuplicateValueValidator_validate_detection_item
    (plain_self (bare_rule [] []))
    (mkItem (Some "Image") [SigmaCaseSensitiveModifier]
       [mkSigmaString "cmd.exe"; mkSigmaString "cmd.exe"])
  = [mkIssue [bare_rule [] []]
       (SigmahqFieldDuplicateValueIssue (Some "Image") "cmd.exe")]
  ∧ fires (SigmahqFieldDuplicateValueValidator_validate_detection_item
             (plain_self (bare_rule [] []))
             (mkItem (Some "Image") [SigmaOtherModifier "endswith"]
                [mkSigmaString "cmd.exe"; mkSigmaString "cmd.exe"])).
Proof.
  split; [vm_compute; reflexivity|].
  apply (DuplicateValue_insensitive_fires (plain_self (bare_rule [] []))
           (mkItem (Some "Image") [SigmaCaseSensitiveModifier]
              [mkSigmaString "cmd.exe"; mkSigmaString "cmd.exe"])
           (mkItem (Some "Image") [SigmaOtherModifier "endswith"]
              [mkSigmaString "cmd.exe"; mkSigmaString "cmd.exe"])).
  - reflexivity.
  - intros (m & Hm & Hc). simpl in Hm.
    apply list_elem_of_singleton in Hm as ->.
    unfold case_sensitive_classes in Hc.
    repeat (apply elem_of_cons in Hc as [Hc|Hc]; [discriminate|]).
    by apply elem_of_nil in Hc.
  - vm_compute. discriminate.
Defined.

Lemma InvalidAllModifier_excludes_duplicate_witness :
  SigmahqFieldDuplicateValueValidator_validate_detection_item
    (plain_self (bare_rule [] []))
    (mkItem (Some "CommandLine") [SigmaAllModifier] [mkSigmaString "a"]) = [].
Proof.
  apply (InvalidAllModifier_excludes_duplicate (plain_self (bare_rule [] []))
           (mkItem (Some "CommandLine") [SigmaAllModifier] [mkSigmaString "a"])).
  vm_compute. discriminate.
Defined.

(** ** Presence of the metadata *)

Section Presence.
Context {V : Type}.
Variable config : ConfigHQ.
Implicit Types (rule : SigmaRule V).

(** X8. The two status checks never both report a rule: a rule without status
    gets the Missing-status issue only, a rule whose status is DEPRECATED
    or UNSUPPORTED gets the status issue only, and a rule with any other
    status passes both. *)
Theorem status_checks_outcome rule :
  (status rule = None
   ∧ SigmahqStatusExistenceValidator_validate rule
     = Ok [mkIssue [rule] SigmahqStatusExistenceIssue]
   ∧ SigmahqStatusValidator_validate rule = Ok [])
  ∨ (status rule ∈ [Some DEPRECATED; Some UNSUPPORTED]
     ∧ SigmahqStatusExistenceValidator_validate rule = Ok []
     ∧ SigmahqStatusValidator_validate rule = Ok [mkIssue [rule] SigmahqStatusIssue])
  ∨ (status rule ∈ [Some STABLE; Some TEST; Some EXPERIMENTAL]
     ∧ SigmahqStatusExistenceValidator_validate rule = Ok []
     ∧ SigmahqStatusValidator_validate rule = Ok []).
Proof.
  unfold SigmahqStatusExistenceValidator_validate, SigmahqStatusValidator_validate.
  destruct (status rule) as [[]|]; simpl.
  - right; right. split; [set_solver|done].
  - right; right. split; [set_solver|done].
  - right; right. split; [set_solver|done].
  - right; left. split; [set_solver|done].
  - right; left. split; [set_solver|done].
  - by left.
Qed.

(** X9. The two description checks never both report a rule: without a
    description the rule gets the Missing-description issue only, with a
    description of fewer than 16 characters (the empty one included) the
    too-short issue only, and with 16 characters or more it passes both. *)
Theorem description_checks_outcome rule :
  (description rule = None
   ∧ SigmahqDescriptionExistenceValidator_validate rule
     = Ok [mkIssue [rule] SigmahqDescriptionExistenceIssue]
   ∧ SigmahqDescriptionLengthValidator_validate rule = Ok [])
  ∨ (∃ text, description rule = Some text ∧ String.length text < 16
     ∧ SigmahqDescriptionExistenceValidator_validate rule = Ok []
     ∧ SigmahqDescriptionLengthValidator_validate rule
       = Ok [mkIssue [rule] SigmahqDescriptionLengthIssue])
  ∨ (∃ text, description rule = Some text ∧ 16 ≤ String.length text
     ∧ SigmahqDescriptionExistenceValidator_validate rule = Ok []
     ∧ SigmahqDescriptionLengthValidator_validate rule = Ok []).
Proof.
  unfold SigmahqDescriptionExistenceValidator_validate,
    SigmahqDescriptionLengthValidator_validate, Py.len.
  destruct (description rule) as [text|]; [|by left].
  right. destruct (decide (String.length text < 16)).
  - left. by exists text.
  - right. exists text. split_and!; [done|lia|done|done].
Qed.

Lemma link_loop_outcome rule text links :
  (∃ link, link ∈ links ∧ substring_of link (Py.lower text))
  ∧ link_loop rule text links = [mkIssue [rule] SigmahqLinkInDescriptionIssue]
  ∨ (∀ link, link ∈ links → ¬ substring_of link (Py.lower text))
    ∧ link_loop rule text links = [].
Proof.
  induction links as [|link links IH]; simpl.
  - right. split; [|done]. intros link Hin. by apply elem_of_nil in Hin.
  - destruct (Py.contains link (Py.lower text)) eqn:E.
    + left. split; [|done]. exists link. split; [apply list_elem_of_here|].
      by apply contains_spec.
    + destruct IH as [[(l & Hl & Hs) ->]|[Hnone ->]].
      * left. split; [|done]. exists l. split; [by apply list_elem_of_further|done].
      * right. split; [|done]. intros l [->|Hl]%elem_of_cons; [|by apply Hnone].
        intros Hs%contains_spec. congruence.
Qed.

(** X10. Link-in-description returns exactly one issue, however many markers
    occur and however often, when the rule has a non-empty description, no
    references, and a marker of the catalog occurs in the lowercased
    description; in every other case, in particular when the rule has a
    reference, it returns nothing. *)
Theorem LinkInDescription_outcome rule :
  (link_in_description config rule
   ∧ SigmahqLinkInDescriptionValidator_validate config rule
     = Ok [mkIssue [rule] SigmahqLinkInDescriptionIssue])
  ∨ (¬ link_in_description config rule
     ∧ SigmahqLinkInDescriptionValidator_validate config rule = Ok []).
Proof.
  unfold SigmahqLinkInDescriptionValidator_validate, link_in_description.
  destruct (description rule) as [text|]; [|right; split; [by intros (?&?&?&_)|done]].
  destruct (decide (text ≠ "" ∧ references rule = [])) as [[Hne Hrefs]|Hn].
  - destruct (link_loop_outcome rule text (sigmahq_link_in_description config))
      as [[(l & Hl & Hs) ->]|[Hnone ->]].
    + left. split; [|done]. by exists text, l.
    + right. split; [|done]. intros (t & l & [= <-] & _ & _ & Hl & Hs).
      by apply (Hnone l).
  - right. split; [|done]. intros (t & l & [= <-] & Hne & Hrefs & _). by apply Hn.
Qed.

End Presence.

(** ** Words of the falsepositive entries *)

Section StringFacts.

Lemma length_append a b : String.length (a +:+ b) = String.length a + String.length b.
Proof. induction a as [|c a IH]; [done|]. rewrite append_cons. simpl. by rewrite IH. Qed.

Lemma contains_length needle hay :
  Py.contains needle hay = true → String.length needle ≤ String.length hay.
Proof.
  intros (a & b & ->)%contains_spec. rewrite !length_append. lia.
Qed.

Lemma all_chars_impl (P Q : ascii → bool) s :
  (∀ c, P c = true → Q c = true) → all_chars P s = true → all_chars Q s = true.
Proof.
  intros HPQ. induction s as [|c s IH]; simpl; [done|].
  intros [Hc Hs]%andb_true_iff. apply andb_true_iff. split; [by apply HPQ | by apply IH].
Qed.

Lemma all_chars_lstrip P s : all_chars P s = true → all_chars P (Py.lstrip s) = true.
Proof.
  induction s as [|c s IH]; simpl; [done|].
  destruct (Py.is_whitespace c); [|done].
  intros [_ Hs]%andb_true_iff. by apply IH.
Qed.

Lemma all_chars_rstrip P s : all_chars P s = true → all_chars P (Py.rstrip s) = true.
Proof.
  induction s as [|c s IH]; simpl; [done|].
  intros [Hc Hs]%andb_true_iff. specialize (IH Hs).
  destruct (Py.rstrip s) as [|c' t].
  - destruct (Py.is_whitespace c); simpl; [done|]. by rewrite Hc.
  - change (all_chars P (String c (String c' t)) = true).
    simpl in *. by rewrite Hc, IH.
Qed.

Lemma all_chars_strip P s : all_chars P s = true → all_chars P (Py.strip s) = true.
Proof. intros Hs. by apply all_chars_rstrip, all_chars_lstrip. Qed.

Lemma lower_char_token_char c : c ≠ " "%char → token_char (Py.lower_char c) = true.
Proof.
  intros Hc. unfold token_char, Py.lower_char.
  destruct (Py.is_ascii_upper c) eqn:E.
  - unfold Py.is_ascii_upper in *. apply andb_true_iff in E as [E1 E2].
    apply Nat.leb_le in E1, E2.
    rewrite bool_decide_false.
    + rewrite nat_ascii_embedding by lia. cbn [negb andb].
      apply negb_true_iff, andb_false_iff. right. apply Nat.leb_gt. lia.
    + intros Heq. apply (f_equal nat_of_ascii) in Heq.
      rewrite nat_ascii_embedding in Heq by lia.
      change (nat_of_ascii " ") with 32 in Heq. lia.
  - rewrite E. by rewrite bool_decide_false.
Qed.

Lemma lower_token_chars s :
  all_chars (fun c => negb (bool_decide (c = " "%char))) s = true →
  all_chars token_char (Py.lower s) = true.
Proof.
  induction s as [|c s IH]; simpl; [done|].
  intros [Hc Hs]%andb_true_iff. apply andb_true_iff. split; [|by apply IH].
  apply lower_char_token_char. intros ->. by rewrite bool_decide_true in Hc.
Qed.

Lemma split_tokens_no_space s t :
  t ∈ Py.split " " s →
  all_chars (fun c => negb (bool_decide (c = " "%char))) t = true.
Proof.
  revert t. induction s as [|c s IH]; intros t; simpl.
  - by intros ->%list_elem_of_singleton.
  - destruct (decide (c = " "%char)) as [->|Hne].
    + intros [->|Hin]%elem_of_cons; [done | by apply IH].
    + destruct (Py.split " " s) as [|w ws] eqn:E.
      * intros ->%list_elem_of_singleton. simpl. by rewrite bool_decide_false.
      * intros [->|Hin]%elem_of_cons.
        -- simpl. rewrite bool_decide_false by done. apply IH, list_elem_of_here.
        -- by apply IH, list_elem_of_further.
Qed.

(** The form under which a token is compared has no space and no
    uppercase letter. *)
Lemma token_normal_form fps fp :
  fp ∈ fp_tokens fps → all_chars token_char (Py.strip (Py.lower fp)) = true.
Proof.
  unfold fp_tokens. intros (e & Hfp & _)%list_elem_of_bind.
  by apply all_chars_strip, lower_token_chars, (split_tokens_no_space e).
Qed.

End StringFacts.

Section BannedWordLoops.
Context {V : Type}.
Implicit Types (rule : SigmaRule V) (fp : string) (config : ConfigHQ).

Lemma banned_word_loop_spec rule fp words acc :
  banned_word_loop rule fp words acc = acc ++ banned_issues rule words fp.
Proof.
  unfold banned_issues. revert acc.
  induction words as [|w words IH]; intros acc; simpl.
  - by rewrite app_nil_r.
  - rewrite filter_cons. destruct (decide (Py.strip (Py.lower fp) = w)).
    + rewrite IH. simpl. by rewrite <- app_assoc.
    + apply IH.
Qed.

Lemma banned_token_loop_spec config rule tokens acc :
  banned_token_loop config rule tokens acc
  = acc ++ (tokens ≫= banned_issues rule (sigmahq_fp_banned_word config)).
Proof.
  revert acc. induction tokens as [|fp tokens IH]; intros acc; simpl.
  - by rewrite app_nil_r.
  - by rewrite IH, banned_word_loop_spec, <- app_assoc.
Qed.

Lemma banned_entry_loop_spec config rule entries acc :
  banned_entry_loop config rule entries acc
  = acc ++ (fp_tokens entries ≫= banned_issues rule (sigmahq_fp_banned_word config)).
Proof.
  unfold fp_tokens. revert acc. induction entries as [|e entries IH]; intros acc; simpl.
  - by rewrite app_nil_r.
  - by rewrite IH, banned_token_loop_spec, bind_app, <- app_assoc.
Qed.

Lemma BannedWord_validate_spec config rule :
  SigmahqFalsepositivesBannedWordValidator_validate config rule
  = Ok (fp_tokens (falsepositives rule)
          ≫= banned_issues rule (sigmahq_fp_banned_word config)).
Proof.
  unfold SigmahqFalsepositivesBannedWordValidator_validate.
  destruct (falsepositives rule) as [|e entries]; [done|].
  by rewrite banned_entry_loop_spec.
Qed.

End BannedWordLoops.

Section BannedWord.
Context {V : Type}.
Variable config : ConfigHQ.
Implicit Types (rule : SigmaRule V) (fp : string).

Lemma banned_issues_NoDup rule words fp :
  NoDup words →
  banned_issues rule words fp
  = if decide (Py.strip (Py.lower fp) ∈ words)
    then [mkIssue [rule] (SigmahqFalsepositivesBannedWordIssue fp)] else [].
Proof.
  unfold banned_issues. induction 1 as [|w words Hw Hnd IH]; [done|].
  rewrite filter_cons. destruct (decide (Py.strip (Py.lower fp) = w)) as [<-|Hne].
  - rewrite decide_True by apply list_elem_of_here.
    rewrite fmap_cons, IH, decide_False; done.
  - rewrite IH. destruct (decide (_ ∈ words)) as [Hin|Hin].
    + rewrite decide_True; [done | by apply list_elem_of_further].
    + rewrite decide_False; [done|]. by intros [?|?]%elem_of_cons.
Qed.

(** X11. The Falsepositive-banned-word check never raises.  It returns an issue
    carrying a token for exactly the tokens of the falsepositive entries,
    split on single spaces, whose trimmed lowercase form is a banned word;
    when no banned word is listed twice, the issues are, in the order of
    the tokens, one per such token. *)
Theorem BannedWord_outcome rule :
  ∃ issues,
    SigmahqFalsepositivesBannedWordValidator_validate config rule = Ok issues
    ∧ (∀ issue, issue ∈ issues
         ↔ ∃ fp, fp ∈ fp_tokens (falsepositives rule)
                 ∧ Py.strip (Py.lower fp) ∈ sigmahq_fp_banned_word config
                 ∧ issue = mkIssue [rule] (SigmahqFalsepositivesBannedWordIssue fp))
    ∧ (NoDup (sigmahq_fp_banned_word config) →
       issues
       = (fun fp => mkIssue [rule] (SigmahqFalsepositivesBannedWordIssue fp))
           <$> filter (fun fp => Py.strip (Py.lower fp) ∈ sigmahq_fp_banned_word config)
                 (fp_tokens (falsepositives rule))).
Proof.
  eexists. split; [apply BannedWord_validate_spec|]. split.
  - intros issue. rewrite list_elem_of_bind. unfold banned_issues. split.
    + intros (fp & Hi & Hfp). apply list_elem_of_fmap in Hi as (w & -> & Hw).
      apply list_elem_of_filter in Hw as [Heq Hw]. exists fp. by rewrite Heq.
    + intros (fp & Hfp & Hw & ->). exists fp. split; [|done].
      apply list_elem_of_fmap. exists (Py.strip (Py.lower fp)). split; [done|].
      by apply list_elem_of_filter.
  - intros Hnd. induction (fp_tokens (falsepositives rule)) as [|fp tokens IH]; [done|].
    rewrite bind_cons, IH, banned_issues_NoDup, filter_cons by done.
    by destruct (decide (_ ∈ _)).
Qed.

Lemma banned_issues_matchable rule words fps fp :
  fp ∈ fp_tokens fps →
  banned_issues rule (filter (fun w => all_chars token_char w = true) words) fp
  = banned_issues rule words fp.
Proof.
  intros Hfp%token_normal_form. unfold banned_issues. f_equal.
  induction words as [|w words IH]; [done|].
  rewrite !filter_cons.
  destruct (decide (all_chars token_char w = true)) as [Hw|Hw].
  - rewrite filter_cons, IH. done.
  - rewrite IH, decide_False; [done|]. by intros <-.
Qed.

(** X12. A banned word that holds a space or an uppercase letter is never
    matched: taking all such words out of the list of banned words leaves
    the result of the check unchanged, on every rule. *)
Theorem BannedWord_unmatchable_words rule :
  SigmahqFalsepositivesBannedWordValidator_validate
    (with_banned_words config
       (filter (fun w => all_chars token_char w = true) (sigmahq_fp_banned_word config)))
    rule
  = SigmahqFalsepositivesBannedWordValidator_validate config rule.
Proof.
  unfold SigmahqFalsepositivesBannedWordValidator_validate.
  destruct (falsepositives rule) as [|e entries] eqn:E; [done|].
  rewrite !banned_entry_loop_spec. simpl. f_equal.
  apply Forall_bind_ext, Forall_forall. intros fp Hfp.
  by apply (banned_issues_matchable _ _ (e :: entries)).
Qed.

End BannedWord.

Section TypoWordOutcome.
Context {V : Type}.
Variable config : ConfigHQ.
Implicit Types (rule : SigmaRule V) (fp : string).

(** X13. The Falsepositive-typo-word check never raises.  It returns an issue
    carrying a token for exactly the tokens of the falsepositive entries,
    split on single spaces, whose trimmed lowercase form occurs inside a
    word of the typo catalog.  The test goes from the token to the typo
    word: a token that is longer than every typo word, such as a typo with
    an ending added, is never reported. *)
Theorem TypoWord_outcome rule :
  ∃ issues,
    SigmahqFalsepositivesTypoWordValidator_validate config rule = Ok issues
    ∧ (∀ issue, issue ∈ issues
         ↔ ∃ fp typo, fp ∈ fp_tokens (falsepositives rule)
                      ∧ typo ∈ sigmahq_fp_typo_word config
                      ∧ substring_of (Py.strip (Py.lower fp)) typo
                      ∧ issue = mkIssue [rule] (SigmahqFalsepositivesTypoWordIssue fp))
    ∧ (∀ fp, (∀ typo, typo ∈ sigmahq_fp_typo_word config →
                      String.length typo < String.length (Py.strip (Py.lower fp))) →
             mkIssue [rule] (SigmahqFalsepositivesTypoWordIssue fp) ∉ issues).
Proof.
  eexists. split; [apply TypoWord_validate_spec|].
  assert (∀ issue,
    issue ∈ fp_tokens (falsepositives rule)
              ≫= typo_issues rule (sigmahq_fp_typo_word config)
    ↔ ∃ fp typo, fp ∈ fp_tokens (falsepositives rule)
                 ∧ typo ∈ sigmahq_fp_typo_word config
                 ∧ substring_of (Py.strip (Py.lower fp)) typo
                 ∧ issue = mkIssue [rule] (SigmahqFalsepositivesTypoWordIssue fp)) as Hiff.
  { intros issue. rewrite list_elem_of_bind. unfold typo_issues, substring_of. split.
    - intros (fp & Hi & Hfp). apply list_elem_of_fmap in Hi as (typo & -> & Ht).
      apply list_elem_of_filter in Ht as [Hc Ht]. exists fp, typo.
      split_and!; try done. by apply contains_spec.
    - intros (fp & typo & Hfp & Ht & Hs & ->). exists fp. split; [|done].
      apply list_elem_of_fmap. exists typo. split; [done|].
      apply list_elem_of_filter. split; [|done]. by apply contains_spec. }
  split; [exact Hiff|].
  intros fp Hlong Hin. apply Hiff in Hin as (fp' & typo & _ & Ht & Hs & [= <-]).
  specialize (Hlong typo Ht).
  destruct Hs as (a & b & ->). rewrite !length_append in Hlong. lia.
Qed.

End TypoWordOutcome.

(** A typo with an ending added is not reported, the exact typo is. *)
Example typo_with_ending :
  SigmahqFalsepositivesTypoWordValidator_validate
    (mkConfig ∅ ∅ [] ["unkown"] []) (bare_rule ["Unkowns"] []) = Ok []
  ∧ SigmahqFalsepositivesTypoWordValidator_validate
      (mkConfig ∅ ∅ [] ["unkown"] []) (bare_rule ["Unkown"] [])
    = Ok [mkIssue [bare_rule ["Unkown"] []] (SigmahqFalsepositivesTypoWordIssue "Unkown")].
Proof. split; vm_compute; reflexivity. Qed.

(** ** Issue classes *)

Section IssueClasses.
Context {V : Type} `{!SigmaType V}.
Variable config : ConfigHQ.
Implicit Types (rule : SigmaRule V) (self : Self V) (d : SigmaDetectionItem V).

Lemma own_issue_class_severity validator c :
  own_issue_class validator c → issue_severity c = validator_severity validator.
Proof. by destruct validator, c. Qed.

Lemma capital_loop_Forall (P : SigmaValidationIssue V → Prop) rule fps acc :
  (∀ w, P (mkIssue [rule] (SigmahqFalsepositivesCapitalIssue w))) →
  Forall P acc → Forall P (issues_of (capital_loop rule fps acc)).
Proof.
  intros HP. revert acc. induction fps as [|fp fps IH]; intros acc Hacc; [done|].
  destruct fp as [|c s]; [constructor|].
  rewrite capital_loop_step. apply IH.
  destruct (Py.is_ascii_lower c); [|done].
  apply Forall_app. split; [done|]. constructor; [apply HP | constructor].
Qed.

Lemma validate_own_class validator rule :
  Forall (fun i => own_issue_class validator (issue_class i))
    (issues_of (validate config validator rule)).
Proof.
  destruct validator; simpl.
  - unfold SigmahqStatusExistenceValidator_validate. item_check.
  - unfold SigmahqStatusValidator_validate. item_check.
  - unfold SigmahqDateExistenceValidator_validate. item_check.
  - unfold SigmahqDescriptionExistenceValidator_validate. item_check.
  - unfold SigmahqDescriptionLengthValidator_validate. item_check.
  - unfold SigmahqLevelExistenceValidator_validate. item_check.
  - unfold SigmahqFalsepositivesCapitalValidator_validate.
    destruct (falsepositives rule); [constructor|]. by apply capital_loop_Forall.
  - rewrite BannedWord_validate_spec. simpl.
    apply Forall_bind, Forall_forall. intros fp _. by apply Forall_fmap, Forall_forall.
  - rewrite TypoWord_validate_spec. simpl.
    apply Forall_bind, Forall_forall. intros fp _. by apply Forall_fmap, Forall_forall.
  - unfold SigmahqLinkInDescriptionValidator_validate.
    destruct (description rule) as [text|]; [|constructor].
    destruct (decide _); [|constructor]. simpl.
    destruct (link_loop_outcome rule text (sigmahq_link_in_description config))
      as [[_ ->]|[_ ->]]; by repeat constructor.
  - unfold SigmahqUnknownFieldValidator_validate. item_check.
  - apply validate_detections_Forall. intros d.
    unfold SigmahqSpaceFieldNameValidator_validate_detection_item. item_check.
  - unfold SigmahqFieldnameCastValidator_validate.
    destruct (SigmahqFieldnameCastValidator_resolve config rule) as [[self|e]|];
      simpl; try constructor.
    apply validate_detections_Forall. intros d.
    unfold SigmahqFieldnameCastValidator_validate_detection_item. item_check.
  - unfold SigmahqInvalidFieldnameValidator_validate.
    destruct (SigmahqInvalidFieldnameValidator_resolve config rule) as [[self|e]|];
      simpl; try constructor.
    apply validate_detections_Forall. intros d.
    unfold SigmahqInvalidFieldnameValidator_validate_detection_item. item_check.
  - apply validate_detections_Forall. intros d.
    destruct (DuplicateValue_outcome (plain_self rule) d)
      as [[-> _]|(j & v & -> & _)]; by repeat constructor.
  - apply validate_detections_Forall. intros d.
    unfold SigmahqInvalidAllModifierValidator_validate_detection_item'. item_check.
  - apply validate_detections_Forall. intros d.
    unfold SigmahqFieldUserValidator_validate_detection_item. item_check.
Qed.

(** X14. Every validator returns issues of its own issue class only, on every
    rule and with every configuration; so the severity of an issue is the
    one declared for the check that returned it: HIGH for the status check
    on DEPRECATED and UNSUPPORTED and for the six detection item checks,
    MEDIUM for the other metadata checks. *)
Theorem validator_issue_class validator rule :
  Forall (fun i => own_issue_class validator (issue_class i)
                   ∧ issue_severity (issue_class i) = validator_severity validator)
    (issues_of (validate config validator rule)).
Proof.
  eapply Forall_impl; [apply validate_own_class|].
  intros i Hi. split; [done | by apply own_issue_class_severity].
Qed.

End IssueClasses.

(** ** Errors of the capital letter check *)

Section CapitalErrors.
Context {V : Type}.
Implicit Types (rule : SigmaRule V).

(** X15. Falsepositive-not-capitalized raises exactly when one of the
    falsepositive entries is the empty string, and then the exception is
    [IndexError] and no issue of the other entries is returned; on every
    other rule it returns at most one issue per entry. *)
Theorem Capital_raises_iff rule :
  ("" ∈ falsepositives rule
   ∧ SigmahqFalsepositivesCapitalValidator_validate rule = Raise IndexError)
  ∨ (("" ∉ falsepositives rule)
     ∧ ∃ issues,
         SigmahqFalsepositivesCapitalValidator_validate rule = Ok issues
         ∧ length issues ≤ length (falsepositives rule)).
Proof.
  unfold SigmahqFalsepositivesCapitalValidator_validate.
  destruct (decide ("" ∈ falsepositives rule)) as [Hin|Hin].
  - left. split; [done|].
    destruct (falsepositives rule) as [|fp fps]; [by apply elem_of_nil in Hin|].
    by apply capital_loop_raises.
  - right. split; [done|].
    destruct (falsepositives rule) as [|fp fps] eqn:E.
    + by exists [].
    + eexists. split.
      * apply capital_loop_spec. intros e He ->. by apply Hin.
      * simpl app. rewrite length_fmap. apply length_filter.
Qed.

End CapitalErrors.
